(** * ramalama: model references, the download gate and the model store

    A shallow embedding of the pull path of [ramalama.py] and of the
    URL/file adapter of [ramalama/url.py], with the properties of the
    reference resolver, the checksum gate, the backend adapters and the
    symlink publisher that the design document states.

    Strings are Python [str] values over 8-bit characters; a file's data
    is a string as well.  Effectful code runs in a state-and-exception
    monad over an explicit world (file system, standard streams, a trace
    of the operations performed). *)

From Stdlib Require Import ZArith Ascii String List Lia Bool DecimalString.
From stdpp Require Import base option list gmap strings.

Local Open Scope Z_scope.

(** ** Python [str] methods *)

Module Str.

(** [c in s] for a one-character [c]. *)
Fixpoint contains (c : ascii) (s : string) : bool :=
  match s with
  | EmptyString => false
  | String a s' => if Ascii.eqb a c then true else contains c s'
  end.

(** [s.partition(c)] when [c] occurs: the text before and after the first
    occurrence. *)
Fixpoint cut (c : ascii) (s : string) : option (string * string) :=
  match s with
  | EmptyString => None
  | String a s' =>
      if Ascii.eqb a c then Some (EmptyString, s')
      else match cut c s' with
           | Some (l, r) => Some (String a l, r)
           | None => None
           end
  end.

(** [s.rpartition(c)] when [c] occurs: the text before and after the last
    occurrence. *)
Fixpoint rcut (c : ascii) (s : string) : option (string * string) :=
  match s with
  | EmptyString => None
  | String a s' =>
      match rcut c s' with
      | Some (l, r) => Some (String a l, r)
      | None => if Ascii.eqb a c then Some (EmptyString, s') else None
      end
  end.

(** [s.split(c, 1)]. *)
Definition split1 (c : ascii) (s : string) : list string :=
  match cut c s with
  | Some (l, r) => [l; r]
  | None => [s]
  end.

(** [s.rsplit(c, 1)]. *)
Definition rsplit1 (c : ascii) (s : string) : list string :=
  match rcut c s with
  | Some (l, r) => [l; r]
  | None => [s]
  end.

(** [s.split(c)]. *)
Fixpoint split (c : ascii) (s : string) : list string :=
  match s with
  | EmptyString => [EmptyString]
  | String a s' =>
      if Ascii.eqb a c then EmptyString :: split c s'
      else match split c s' with
           | h :: t => String a h :: t
           | [] => [String a EmptyString]
           end
  end.

(** [sep.join(l)]. *)
Fixpoint join (sep : string) (l : list string) : string :=
  match l with
  | [] => EmptyString
  | [x] => x
  | x :: l' => x +:+ sep +:+ join sep l'
  end.

(** [s.startswith(p)]. *)
Fixpoint startswith (s p : string) : bool :=
  match p, s with
  | EmptyString, _ => true
  | String b p', String a s' => Ascii.eqb a b && startswith s' p'
  | String _ _, EmptyString => false
  end.

Fixpoint drop (n : nat) (s : string) : string :=
  match n, s with
  | O, _ => s
  | S n', String _ s' => drop n' s'
  | S _, EmptyString => EmptyString
  end.

(** [s.removeprefix(p)]; also [re.sub('^' + p, '', s)] for a literal [p]. *)
Definition removeprefix (s p : string) : string :=
  if startswith s p then drop (String.length p) s else s.

(** [s.endswith(p)]. *)
Definition endswith (s p : string) : bool :=
  (String.length p <=? String.length s)%nat
  && String.eqb (drop (String.length s - String.length p) s) p.

(** [s.replace(c, d)] for one-character [c] and [d]. *)
Fixpoint replace (c d : ascii) (s : string) : string :=
  match s with
  | EmptyString => EmptyString
  | String a s' => String (if Ascii.eqb a c then d else a) (replace c d s')
  end.

(** The characters [str.rstrip()] removes. *)
Definition isspace (a : ascii) : bool :=
  let n := nat_of_ascii a in
  ((9 <=? n) && (n <=? 13) || (28 <=? n) && (n <=? 32))%nat.

(** [s.rstrip()]. *)
Fixpoint rstrip (s : string) : string :=
  match s with
  | EmptyString => EmptyString
  | String a s' =>
      match rstrip s' with
      | EmptyString => if isspace a then EmptyString else String a EmptyString
      | r => String a r
      end
  end.

(** [s.rstrip(c)] for a one-character [c]. *)
Fixpoint rstrip_char (c : ascii) (s : string) : string :=
  match s with
  | EmptyString => EmptyString
  | String a s' =>
      match rstrip_char c s' with
      | EmptyString => if Ascii.eqb a c then EmptyString else String a EmptyString
      | r => String a r
      end
  end.

End Str.

(** Python negative indexing on lists: [l[-1]], [l[-2]] and [l[:-2]]. *)
Definition last1 (l : list string) : string := List.last l EmptyString.
Definition last2 (l : list string) : string := List.last (removelast l) EmptyString.
Definition but_last2 (l : list string) : list string := removelast (removelast l).

(** ** [os.path] (posixpath) *)

Module Path.

Definition sep : ascii := "/"%char.

(** [os.path.basename]. *)
Definition basename (p : string) : string :=
  match Str.rcut sep p with
  | Some (_, b) => b
  | None => p
  end.

(** [os.path.dirname]: the head up to the last slash, without its trailing
    slashes unless it consists of slashes only. *)
Definition dirname (p : string) : string :=
  match Str.rcut sep p with
  | Some (h, _) =>
      let head := h +:+ "/" in
      match Str.rstrip_char sep head with
      | EmptyString => head
      | stripped => stripped
      end
  | None => EmptyString
  end.

(** [os.path.join(a, b)]. *)
Definition join (a b : string) : string :=
  if Str.startswith b "/" then b
  else if String.eqb a EmptyString || Str.endswith a "/" then a +:+ b
  else a +:+ "/" +:+ b.

(** [os.path.join(a, *l)]. *)
Definition joins (a : string) (l : list string) : string := fold_left join l a.

Definition isabs (p : string) : bool := Str.startswith p "/".

(** The components of [os.path.abspath(p)]: empty and [.] components are
    dropped, [..] removes the component before it (and is dropped at the
    root). *)
Fixpoint collapse (acc : list string) (comps : list string) : list string :=
  match comps with
  | [] => rev acc
  | c :: rest =>
      if String.eqb c EmptyString || String.eqb c "." then collapse acc rest
      else if String.eqb c ".." then collapse (tail acc) rest
      else collapse (c :: acc) rest
  end.

Definition components (cwd p : string) : list string :=
  collapse [] (Str.split sep (if isabs p then p else join cwd p)).

(** The canonical absolute spelling of a path, the key under which the
    file system stores an entry. *)
Definition canon (cwd p : string) : string :=
  "/" +:+ Str.join "/" (components cwd p).

Fixpoint strip_common (a b : list string) : list string * list string :=
  match a, b with
  | x :: a', y :: b' => if String.eqb x y then strip_common a' b' else (a, b)
  | _, _ => (a, b)
  end.

(** [os.path.relpath(path, start=start)]; [None] is the [ValueError] for an
    empty [path]. *)
Definition relpath (cwd path start : string) : option string :=
  if String.eqb path EmptyString then None
  else
    let '(s_rest, p_rest) :=
      strip_common (components cwd start) (components cwd path) in
    match List.map (fun _ => "..") s_rest ++ p_rest with
    | [] => Some "."
    | rel => Some (Str.join "/" rel)
    end.

End Path.

(** ** Outcomes of a Python computation *)

(** The exceptions the modelled code can raise.  [CalledProcessError] is
    what [subprocess.run(..., check=True)] raises on a non-zero exit
    status. *)
Inductive exn : Type :=
| ValueError (msg : string)
| TypeError
| KeyError (key : string)
| IndexError
| JSONDecodeError
| CalledProcessError (cmd : list string) (returncode : Z)
| FileNotFoundError (msg : string)
| FileExistsError (path : string)
| NotADirectoryError (path : string)
| IsADirectoryError (path : string)
| SameFileError
| OSError (msg : string).

(** A computation returns a value, leaves through [sys.exit(code)], or
    raises an exception that nothing has caught yet. *)
Inductive outcome (A : Type) : Type :=
| Ok (a : A)
| Exit (code : Z)
| Raise (e : exn).
Arguments Ok {A} a.
Arguments Exit {A} code.
Arguments Raise {A} e.

(** ** The world: file system, streams and trace *)

Inductive node : Type :=
| File (data : string)
| Link (target : string)
| Dir.

(** What a run does to its environment, in order: a command started
    through [subprocess], and the three kinds of file-system write. *)
Inductive event : Type :=
| Run (args : list string)
| Write (path : string)
| Mkdir (path : string)
| Symlink (path target : string).

(** The file system maps the canonical spelling of a path to the entry
    stored there.  Symbolic links are followed at the last component of a
    path only: the directories of the store are real directories. *)
Record world : Type := World {
  fs : gmap string node;
  cwd : string;
  stdout : list string;
  stderr : list string;
  trace : list event
}.

Definition with_fs (w : world) (m : gmap string node) : world :=
  World m (cwd w) (stdout w) (stderr w) (trace w).

Definition log (e : event) (w : world) : world :=
  World (fs w) (cwd w) (stdout w) (stderr w) (trace w ++ [e]).

(** A parsed JSON document, as [json.load] returns it: objects keep their
    members in document order. *)
#[warnings="-register-all"]
Inductive json : Type :=
| JNull
| JBool (b : bool)
| JNum (n : Z)
| JStr (s : string)
| JArr (items : list json)
| JObj (members : list (string * json)).

(** The collaborators outside the repository: the two library functions
    the code calls on file data, and the behaviour of the network and of
    the installed tools.  A request answers with the tool's exit status
    and the data received; [http_get] is asked for the bytes of [url]
    from an offset on, which is how [curl -C -] resumes. *)
Record platform : Type := Platform {
  sha256_hexdigest : string -> string;
  json_loads : string -> option json;
  http_get : string -> nat -> Z * string;
  omlmd_pull : string -> Z * list (string * string);
  hf_download : string -> string -> Z * string;
  ln_status : string -> string -> Z
}.

(** ** The monad *)

Definition M (A : Type) : Type := world -> outcome A * world.

Definition ret {A} (a : A) : M A := fun w => (Ok a, w).

Definition bind {A B} (m : M A) (k : A -> M B) : M B := fun w =>
  match m w with
  | (Ok a, w') => k a w'
  | (Exit c, w') => (Exit c, w')
  | (Raise e, w') => (Raise e, w')
  end.

Notation "x <- m ;; k" := (bind m (fun x => k))
  (at level 100, m at next level, right associativity).
Notation "m ;;; k" := (bind m (fun _ => k))
  (at level 100, right associativity).

Definition raise {A} (e : exn) : M A := fun w => (Raise e, w).

(** [sys.exit(code)]. *)
Definition sys_exit {A} (code : Z) : M A := fun w => (Exit code, w).

(** [try: m except subprocess.CalledProcessError as e: h(e)], the handler
    receiving [e.cmd] and [e.returncode]. *)
Definition try_except_CalledProcessError {A} (m : M A)
    (h : list string -> Z -> M A) : M A :=
  fun w =>
    match m w with
    | (Raise (CalledProcessError cmd rc), w') => h cmd rc w'
    | r => r
    end.

(** Lifting a pure result that may be an exception. *)
Definition lift {A} (r : outcome A) : M A := fun w => (r, w).

Definition when (b : bool) (m : M unit) : M unit := if b then m else ret tt.

(** [print(msg)] and [print_error(msg)]. *)
Definition print (msg : string) : M unit := fun w =>
  (Ok tt, World (fs w) (cwd w) (stdout w ++ [msg]) (stderr w) (trace w)).

Definition print_error (msg : string) : M unit := fun w =>
  (Ok tt, World (fs w) (cwd w) (stdout w) (stderr w ++ [msg]) (trace w)).

(** ** File-system primitives *)

Definition key (w : world) (p : string) : string := Path.canon (cwd w) p.

(** Following symbolic links from a canonical path; the kernel gives up
    after 40 links ([ELOOP]). *)
Fixpoint resolve (fuel : nat) (w : world) (k : string) : option string :=
  match fs w !! k with
  | Some (Link t) =>
      match fuel with
      | O => None
      | S n => resolve n w (key w (Path.join (Path.dirname k) t))
      end
  | _ => Some k
  end.

(** The empty path names nothing. *)
Definition follow (w : world) (p : string) : option string :=
  if String.eqb p EmptyString then None else resolve 40 w (key w p).

(** The entry a path leads to, links followed. *)
Definition stat (w : world) (p : string) : option node :=
  match follow w p with
  | Some k => fs w !! k
  | None => None
  end.

(** [os.path.exists], [os.path.lexists], [os.path.isdir]. *)
Definition path_exists (w : world) (p : string) : bool :=
  match stat w p with Some _ => true | None => false end.

Definition path_lexists (w : world) (p : string) : bool :=
  if String.eqb p EmptyString then false
  else match fs w !! key w p with Some _ => true | None => false end.

Definition path_isdir (w : world) (p : string) : bool :=
  match stat w p with Some Dir => true | _ => false end.

Definition os_path_exists (p : string) : M bool :=
  fun w => (Ok (path_exists w p), w).

(** [os.readlink]. *)
Definition os_readlink (p : string) : M string := fun w =>
  if String.eqb p EmptyString then (Raise (FileNotFoundError p), w)
  else
    match fs w !! key w p with
    | Some (Link t) => (Ok t, w)
    | Some _ => (Raise (OSError "Invalid argument"), w)
    | None => (Raise (FileNotFoundError p), w)
    end.

(** [open(p).read()]. *)
Definition read_file (p : string) : M string := fun w =>
  match stat w p with
  | Some (File d) => (Ok d, w)
  | Some Dir => (Raise (IsADirectoryError p), w)
  | _ => (Raise (FileNotFoundError p), w)
  end.

(** Writing the data of a file, through a link if there is one.  [None]
    when the path leads to a directory or into a loop of links. *)
Definition write_file (w : world) (p data : string) : option world :=
  match follow w p with
  | Some k =>
      match fs w !! k with
      | Some Dir => None
      | _ => Some (log (Write k) (with_fs w (<[k := File data]> (fs w))))
      end
  | None => None
  end.

(** [os.makedirs(p, exist_ok=True)]: every missing directory on the way
    to [p] is created; a component that is not a directory is an error. *)
Fixpoint makedirs_from (pre : string) (comps : list string) : M unit :=
  match comps with
  | [] => ret tt
  | c :: rest =>
      let cur := pre +:+ "/" +:+ c in
      fun w =>
        match fs w !! cur, stat w cur with
        | _, Some Dir => makedirs_from cur rest w
        | None, _ =>
            makedirs_from cur rest (log (Mkdir cur) (with_fs w (<[cur := Dir]> (fs w))))
        | Some _, _ =>
            match rest with
            | [] => (Raise (FileExistsError cur), w)
            | _ => (Raise (NotADirectoryError cur), w)
            end
        end
  end.

Definition os_makedirs (p : string) : M unit := fun w =>
  if String.eqb p EmptyString then (Raise (FileNotFoundError p), w)
  else makedirs_from EmptyString (Path.components (cwd w) p) w.

(** [os.symlink(src, dst)]: a new link at [dst] with target [src]. *)
Definition os_symlink (src dst : string) : M unit := fun w =>
  if String.eqb dst EmptyString then (Raise (FileNotFoundError dst), w)
  else
    match fs w !! key w dst with
    | Some _ => (Raise (FileExistsError dst), w)
    | None =>
        (Ok tt, log (Symlink (key w dst) src)
                  (with_fs w (<[key w dst := Link src]> (fs w))))
    end.

(** [shutil.copy(src, dst)]: the data of [src] is written to [dst], or
    into [dst] under the base name of [src] when [dst] is a directory;
    copying a file onto itself is an error. *)
Definition shutil_copy (src dst : string) : M string := fun w =>
  let dst := if path_isdir w dst then Path.join dst (Path.basename src) else dst in
  match stat w src with
  | Some (File data) =>
      if bool_decide (follow w src = follow w dst) then (Raise SameFileError, w)
      else
        match write_file w dst data with
        | Some w' => (Ok dst, w')
        | None => (Raise (IsADirectoryError dst), w)
        end
  | Some _ => (Raise (IsADirectoryError src), w)
  | None => (Raise (FileNotFoundError src), w)
  end.

(** The names in a directory, in the order of the file system's keys. *)
Definition entries (w : world) (k : string) : list string :=
  omap (fun '(q, _) =>
          if String.eqb (Path.dirname q) k && negb (String.eqb q "/")
          then Some (Path.basename q) else None)
       (map_to_list (fs w)).

(** [os.listdir]. *)
Definition os_listdir (p : string) : M (list string) := fun w =>
  match follow w p with
  | Some k =>
      match fs w !! k with
      | Some Dir => (Ok (entries w k), w)
      | Some _ => (Raise (NotADirectoryError p), w)
      | None => (Raise (FileNotFoundError p), w)
      end
  | None => (Raise (OSError "Too many levels of symbolic links"), w)
  end.

(** [glob.glob(f"{store}/models/*/{model}")] for a [model] without pattern
    characters: the entries of [models] whose name does not start with a
    dot and under which [model] names something. *)
Definition glob_models (w : world) (store model : string) : list string :=
  match follow w (store +:+ "/models") with
  | Some k =>
      match fs w !! k with
      | Some Dir =>
          filter (fun p => path_lexists w p = true)
            (List.map (fun d => store +:+ "/models/" +:+ d +:+ "/" +:+ model)
               (filter (fun d => Str.startswith d "." = false) (entries w k)))
      | _ => []
      end
  | None => []
  end.

Definition glob_glob_models (store model : string) : M (list string) :=
  fun w => (Ok (glob_models w store model), w).

(** [os.path.relpath] as a computation: the [ValueError] for an empty
    path. *)
Definition os_path_relpath (path start : string) : M string := fun w =>
  match Path.relpath (cwd w) path start with
  | Some r => (Ok r, w)
  | None => (Raise (ValueError "no path specified"), w)
  end.

(** ** The installed tools

    What the commands the code starts do to the world.  Whether a command
    succeeds, and what the network returns, is the platform's answer; on
    success the command writes what it was asked to write. *)

Section Tools.

Variable P : platform.

Record curl_request : Type := CurlRequest {
  curl_resume : bool;
  curl_output : option string;
  curl_url : option string
}.

(** The options the code passes to curl: [-C -] resumes at the size of the
    output file, [-o FILE] names the output, [--header H] adds a header,
    every other word starting with a dash is a flag, the remaining word
    is the URL.  [pending] is the option whose value comes next. *)
Fixpoint curl_parse (pending : option string) (args : list string)
    (r : curl_request) : curl_request :=
  match args with
  | [] => r
  | a :: rest =>
      match pending with
      | Some opt =>
          curl_parse None rest
            (if String.eqb opt "-C" then
               CurlRequest true (curl_output r) (curl_url r)
             else if String.eqb opt "-o" then
               CurlRequest (curl_resume r) (Some a) (curl_url r)
             else r)
      | None =>
          if String.eqb a "-C" || String.eqb a "-o" || String.eqb a "--header"
          then curl_parse (Some a) rest r
          else if Str.startswith a "-" then curl_parse None rest r
          else curl_parse None rest
                 (CurlRequest (curl_resume r) (curl_output r) (Some a))
      end
  end.

(** A tool run gives an exit status, the captured standard output and the
    world it leaves. *)
Definition tool_result : Type := Z * string * world.

Definition tool_curl (args : list string) (w : world) : tool_result :=
  let r := curl_parse None args (CurlRequest false None None) in
  match curl_url r, curl_output r with
  | Some url, Some out =>
      let old :=
        match curl_resume r, stat w out with
        | true, Some (File d) => d
        | _, _ => EmptyString
        end in
      let '(rc, data) := http_get P url (String.length old) in
      if rc =? 0 then
        match write_file w out (old +:+ data) with
        | Some w' => (0, EmptyString, w')
        | None => (23, EmptyString, w)
        end
      else (rc, EmptyString, w)
  | _, _ => (2, EmptyString, w)
  end.

(** [ln -sf target link]: the link replaces whatever [link] names, unless
    [link] leads to a directory, in which case the link is made inside
    it under the target's base name. *)
Definition tool_ln (target link : string) (w : world) : tool_result :=
  let rc := ln_status P target link in
  if rc =? 0 then
    let k :=
      if path_isdir w link
      then key w (Path.join link (Path.basename target))
      else key w link in
    (0, EmptyString, log (Symlink k target) (with_fs w (<[k := Link target]> (fs w))))
  else (rc, EmptyString, w).

Fixpoint write_files (dir : string) (files : list (string * string)) (w : world)
  : option world :=
  match files with
  | [] => Some w
  | (name, data) :: rest =>
      match write_file w (dir +:+ "/" +:+ name) data with
      | Some w' => write_files dir rest w'
      | None => None
      end
  end.

(** [omlmd pull target --output outdir]: the files of the artifact are
    written into [outdir]. *)
Definition tool_omlmd_pull (target outdir : string) (w : world) : tool_result :=
  let '(rc, files) := omlmd_pull P target in
  if rc =? 0 then
    match os_makedirs outdir w with
    | (Ok _, w1) =>
        match write_files outdir files w1 with
        | Some w2 => (0, EmptyString, w2)
        | None => (1, EmptyString, w1)
        end
    | (_, w1) => (1, EmptyString, w1)
    end
  else (rc, EmptyString, w).

(** [huggingface-cli download repo filename --cache-dir c --local-dir d]:
    the file is written to [d/filename] and that path is printed. *)
Definition tool_hf_download (repo filename local_dir : string) (w : world)
  : tool_result :=
  let '(rc, data) := hf_download P repo filename in
  if rc =? 0 then
    let dest := local_dir +:+ "/" +:+ filename in
    match os_makedirs (Path.dirname dest) w with
    | (Ok _, w1) =>
        match write_file w1 dest data with
        | Some w2 => (0, dest +:+ String (ascii_of_nat 10) EmptyString, w2)
        | None => (1, EmptyString, w1)
        end
    | (_, w1) => (1, EmptyString, w1)
    end
  else (rc, EmptyString, w).

(** [None]: there is no such program. *)
Definition run_tool (args : list string) (w : world) : option tool_result :=
  match args with
  | prog :: rest =>
      if String.eqb prog "curl" then Some (tool_curl rest w)
      else if String.eqb prog "ln" then
        match rest with
        | [opt; target; link] =>
            if String.eqb opt "-sf" then Some (tool_ln target link w)
            else Some (2, EmptyString, w)
        | _ => Some (2, EmptyString, w)
        end
      else if String.eqb prog "omlmd" then
        match rest with
        | [cmd; target; opt; outdir] =>
            if String.eqb cmd "pull" && String.eqb opt "--output"
            then Some (tool_omlmd_pull target outdir w)
            else Some (2, EmptyString, w)
        | _ => Some (2, EmptyString, w)
        end
      else if String.eqb prog "huggingface-cli" then
        match rest with
        | [cmd; repo; filename; o1; _; o2; local_dir] =>
            if String.eqb cmd "download" && String.eqb o1 "--cache-dir"
               && String.eqb o2 "--local-dir"
            then Some (tool_hf_download repo filename local_dir w)
            else Some (2, EmptyString, w)
        | _ => Some (2, EmptyString, w)
        end
      else None
  | [] => None
  end.

(** [subprocess.run(args, check=True, stdout=subprocess.PIPE)]: the
    captured output, or [CalledProcessError] on a non-zero status. *)
Definition subprocess_run (args : list string) : M string := fun w =>
  match run_tool args (log (Run args) w) with
  | Some (rc, out, w') =>
      if rc =? 0 then (Ok out, w') else (Raise (CalledProcessError args rc), w')
  | None => (Raise (FileNotFoundError (List.hd EmptyString args)), log (Run args) w)
  end.

End Tools.

(** ** Python values read from JSON *)

(** [d[k]] on a dictionary built from a JSON object: the last member named
    [k] is the one kept. *)
Fixpoint dict_get (k : string) (members : list (string * json)) : option json :=
  match members with
  | [] => None
  | (k', v) :: rest =>
      match dict_get k rest with
      | Some v' => Some v'
      | None => if String.eqb k' k then Some v else None
      end
  end.

Fixpoint dict_keys (members : list (string * json)) : list string :=
  match members with
  | [] => []
  | (k, _) :: rest => k :: filter (fun k' => String.eqb k' k = false) (dict_keys rest)
  end.

(** [j[k]] for a string [k]. *)
Definition getitem (j : json) (k : string) : outcome json :=
  match j with
  | JObj members =>
      match dict_get k members with
      | Some v => Ok v
      | None => Raise (KeyError k)
      end
  | _ => Raise TypeError
  end.

(** The values [for v in j] runs through. *)
Definition iter (j : json) : outcome (list json) :=
  match j with
  | JArr items => Ok items
  | JObj members => Ok (List.map JStr (dict_keys members))
  | JStr s =>
      Ok (List.map (fun c => JStr (String c EmptyString)) (list_ascii_of_string s))
  | _ => Raise TypeError
  end.

(** A value used where [os.path.join] needs a [str]. *)
Definition as_str (j : json) : outcome string :=
  match j with
  | JStr s => Ok s
  | _ => Raise TypeError
  end.

(** [j == s] for a string literal [s]. *)
Definition json_eq_str (j : json) (s : string) : bool :=
  match j with
  | JStr t => String.eqb t s
  | _ => false
  end.

Fixpoint for_each {A} (l : list A) (body : A -> M unit) : M unit :=
  match l with
  | [] => ret tt
  | a :: rest => body a ;;; for_each rest body
  end.

(** The decimal spelling of an integer. *)
Definition show_Z (z : Z) : string := NilZero.string_of_int (Z.to_int z).

(** [str(e)] for a [CalledProcessError]. *)
Definition str_CalledProcessError (cmd : list string) (rc : Z) : string :=
  "Command '[" +:+ Str.join ", " (List.map (fun a => "'" +:+ a +:+ "'") cmd)
  +:+ "]' returned non-zero exit status " +:+ show_Z rc +:+ ".".

(** ** [ramalama.py] *)

Section Ramalama.

Variable P : platform.

(** The global [x], never set: commands are not echoed. *)
Definition x : bool := false.

Definition run_cmd (args : list string) : M string :=
  when x (print (Str.join " " args)) ;;;
  subprocess_run P args.

Definition verify_checksum (filename : string) : M bool :=
  present <- os_path_exists filename ;;
  if negb present then ret false
  else
    let fn_base := Path.basename filename in
    if negb (Str.startswith fn_base "sha256:") then
      raise (ValueError ("Filename does not start with 'sha256:': " +:+ fn_base))
    else
      match Str.split ":" fn_base !! 1%nat with
      | None => raise IndexError
      | Some expected_checksum =>
          if negb (String.length expected_checksum =? 64)%nat then
            raise (ValueError "Invalid checksum length in filename")
          else
            data <- read_file filename ;;
            ret (String.eqb (sha256_hexdigest P data) expected_checksum)
      end.

Definition run_curl_cmd (args : list string) (filename : string) : M unit :=
  ok <- verify_checksum filename ;;
  if negb ok then
    try_except_CalledProcessError
      (run_cmd args ;;; ret tt)
      (fun _ returncode =>
         when (returncode =? 22) (print_error (filename +:+ " not found")) ;;;
         sys_exit returncode)
  else ret tt.

Definition pull_ollama_manifest
    (repos_ollama manifests accept registry_head model_tag : string) : M unit :=
  os_makedirs (Path.dirname manifests) ;;;
  os_makedirs (Path.join repos_ollama "blobs") ;;;
  let curl_cmd :=
    ["curl"; "-f"; "-s"; "--header"; accept;
     "-o"; manifests;
     registry_head +:+ "/manifests/" +:+ model_tag] in
  run_cmd curl_cmd ;;; ret tt.

Definition pull_ollama_config_blob
    (repos_ollama accept registry_head : string) (manifest_data : json) : M unit :=
  config <- lift (getitem manifest_data "config") ;;
  digest <- lift (getitem config "digest") ;;
  cfg_hash <- lift (as_str digest) ;;
  let config_blob_path := Path.joins repos_ollama ["blobs"; cfg_hash] in
  let curl_cmd :=
    ["curl"; "-f"; "-s"; "-L"; "-C"; "-"; "--header"; accept;
     "-o"; config_blob_path;
     registry_head +:+ "/blobs/" +:+ cfg_hash] in
  run_curl_cmd curl_cmd config_blob_path.

(** The publishing step all three adapters end with:
    [try: run_cmd(["ln", "-sf", ...]) except CalledProcessError as e:
    print_error(e); sys.exit(e.returncode)]. *)
Definition ln_sf (relative_target_path symlink_path : string) : M unit :=
  try_except_CalledProcessError
    (run_cmd ["ln"; "-sf"; relative_target_path; symlink_path] ;;; ret tt)
    (fun cmd returncode =>
       print_error (str_CalledProcessError cmd returncode) ;;;
       sys_exit returncode).

Definition pull_ollama_blob
    (repos_ollama : string) (layer_digest : json)
    (accept registry_head ramalama_models model_name model_tag
     symlink_path : string) : M unit :=
  digest <- lift (as_str layer_digest) ;;
  let layer_blob_path := Path.joins repos_ollama ["blobs"; digest] in
  let curl_cmd :=
    ["curl"; "-f"; "-L"; "-C"; "-"; "--progress-bar"; "--header";
     accept; "-o"; layer_blob_path;
     registry_head +:+ "/blobs/" +:+ digest] in
  run_curl_cmd curl_cmd layer_blob_path ;;;
  os_makedirs ramalama_models ;;;
  relative_target_path <-
    os_path_relpath layer_blob_path (Path.dirname symlink_path) ;;
  ln_sf relative_target_path symlink_path.

Definition json_load (manifests : string) : M json :=
  data <- read_file manifests ;;
  match json_loads P data with
  | Some j => ret j
  | None => raise JSONDecodeError
  end.

Definition model_media_type : string := "application/vnd.ollama.image.model".

Definition init_pull
    (repos_ollama manifests accept registry_head model_name model_tag
     ramalama_models symlink_path model : string) : M string :=
  manifest_data <-
    try_except_CalledProcessError
      (pull_ollama_manifest repos_ollama manifests accept registry_head model_tag ;;;
       json_load manifests)
      (fun _ returncode =>
         when (returncode =? 22)
           (print_error (model +:+ ":" +:+ model_tag +:+ " not found")) ;;;
         sys_exit returncode) ;;
  pull_ollama_config_blob repos_ollama accept registry_head manifest_data ;;;
  layers <- lift (getitem manifest_data "layers") ;;
  items <- lift (iter layers) ;;
  for_each items (fun layer =>
    layer_digest <- lift (getitem layer "digest") ;;
    media_type <- lift (getitem layer "mediaType") ;;
    if negb (json_eq_str media_type model_media_type) then ret tt
    else
      pull_ollama_blob repos_ollama layer_digest accept registry_head
        ramalama_models model_name model_tag symlink_path) ;;;
  ret symlink_path.

Definition huggingface_download
    (ramalama_store model directory filename : string) : M string :=
  run_cmd ["huggingface-cli"; "download"; directory; filename;
           "--cache-dir"; ramalama_store +:+ "/repos/huggingface/.cache";
           "--local-dir"; ramalama_store +:+ "/repos/huggingface/" +:+ directory].

Definition try_huggingface_download
    (ramalama_store model directory filename : string) : M string :=
  huggingface_download ramalama_store model directory filename.

(** [if os.path.exists(symlink_path) and
    os.readlink(symlink_path) == relative_target_path]. *)
Definition symlink_is_correct (symlink_path relative_target_path : string)
  : M bool :=
  present <- os_path_exists symlink_path ;;
  if present then
    target <- os_readlink symlink_path ;;
    ret (String.eqb target relative_target_path)
  else ret false.

Definition pull_huggingface (model ramalama_store : string) : M string :=
  let model := Str.removeprefix model "huggingface://" in
  match Str.rsplit1 "/" model with
  | [directory; filename] =>
      gguf_path <- try_huggingface_download ramalama_store model directory filename ;;
      let directory := ramalama_store +:+ "/models/huggingface/" +:+ directory in
      os_makedirs directory ;;;
      let symlink_path := directory +:+ "/" +:+ filename in
      relative_target_path <-
        os_path_relpath (Str.rstrip gguf_path) (Path.dirname symlink_path) ;;
      correct <- symlink_is_correct symlink_path relative_target_path ;;
      if correct then ret symlink_path
      else
        ln_sf relative_target_path symlink_path ;;;
        ret symlink_path
  | _ => raise (ValueError "not enough values to unpack (expected 2, got 1)")
  end.

Definition oci_target_decompose (model : string)
  : M (string * string * string * string) :=
  let target := Str.removeprefix model "oci://" in
  match Str.split1 "/" target with
  | [registry; reference] =>
      (if negb (Str.contains "." registry) then
         print_error
           ("You must specify a registry for the model in the form "
            +:+ "'oci://registry.acme.org/ns/repo:tag', got instead: " +:+ model) ;;;
         sys_exit 1
       else ret tt) ;;;
      let reference_dir := Str.replace ":" "/" reference in
      ret (target, registry, reference, reference_dir)
  | _ => raise (ValueError "not enough values to unpack (expected 2, got 1)")
  end.

Definition pull_oci (model ramalama_store : string) : M string :=
  decomposed <- oci_target_decompose model ;;
  let '(target, registry, reference, reference_dir) := decomposed in
  let outdir := ramalama_store +:+ "/repos/oci/" +:+ registry +:+ "/" +:+ reference_dir in
  print ("Downloading " +:+ target +:+ "...") ;;;
  run_cmd ["omlmd"; "pull"; target; "--output"; outdir] ;;;
  files <- os_listdir outdir ;;
  let ggufs := filter (fun file => Str.endswith file ".gguf" = true) files in
  match ggufs with
  | [gguf] =>
      let directory :=
        ramalama_store +:+ "/models/oci/" +:+ registry +:+ "/" +:+ reference_dir in
      os_makedirs directory ;;;
      let symlink_path := directory +:+ "/" +:+ gguf in
      relative_target_path <-
        os_path_relpath (outdir +:+ "/" +:+ gguf) (Path.dirname symlink_path) ;;
      correct <- symlink_is_correct symlink_path relative_target_path ;;
      if correct then ret symlink_path
      else
        ln_sf relative_target_path symlink_path ;;;
        ret symlink_path
  | _ =>
      print ("Error: Unable to identify .gguf file in: " +:+ outdir) ;;;
      sys_exit (-1)
  end.

Definition usage {A} : M A :=
  print "Usage:" ;;;
  print "  ramalama.py COMMAND" ;;;
  print EmptyString ;;;
  print "Commands:" ;;;
  print "  list              List models" ;;;
  print "  pull MODEL        Pull a model" ;;;
  print "  push MODEL TARGET Push a model to target" ;;;
  print "  run MODEL         Run a model" ;;;
  print "  serve MODEL       Serve a model" ;;;
  sys_exit 1.

(** The reference resolution of [pull_cli] for the Ollama registry: the
    repository path and the tag. *)
Definition ollama_model_full (model : string) : string :=
  if Str.contains "/" model then model else "library/" +:+ model.

Definition ollama_name_tag (model_full : string) : string * string :=
  if Str.contains ":" model_full then
    match Str.split1 ":" model_full with
    | [model_name; model_tag] => (model_name, model_tag)
    | _ => (model_full, "latest")
    end
  else (model_full, "latest").

Definition pull_cli (ramalama_store : string) (args : list string) (port : string)
  : M string :=
  match args with
  | [] => usage
  | model :: _ =>
      matching_files <- glob_glob_models ramalama_store model ;;
      match matching_files with
      | first :: _ => ret first
      | [] =>
          if Str.startswith model "huggingface://" then
            pull_huggingface model ramalama_store
          else if Str.startswith model "oci://" then
            pull_oci model ramalama_store
          else
            let model := Str.removeprefix model "ollama://" in
            let repos_ollama := ramalama_store +:+ "/repos/ollama" in
            let ramalama_models := ramalama_store +:+ "/models/ollama" in
            let registry := "https://registry.ollama.ai" in
            let model_full := ollama_model_full model in
            let accept :=
              "Accept: application/vnd.docker.distribution.manifest.v2+json" in
            let '(model_name, model_tag) := ollama_name_tag model_full in
            let model_base := Path.basename model_name in
            let symlink_path :=
              Path.join ramalama_models (model_base +:+ ":" +:+ model_tag) in
            present <- os_path_exists symlink_path ;;
            if present then ret symlink_path
            else
              let manifests :=
                Path.joins repos_ollama ["manifests"; registry; model_name; model_tag] in
              let registry_head := registry +:+ "/v2/" +:+ model_name in
              init_pull repos_ollama manifests accept registry_head model_name
                model_tag ramalama_models symlink_path model
      end
  end.

End Ramalama.

(** ** [ramalama/url.py] *)

(** A [SnapshotFile] as the adapter builds it.  [download] is the method
    the store calls with the blob path and the snapshot directory. *)
Record SnapshotFile : Type := MkSnapshotFile {
  sf_url : string;
  sf_header : list (string * string);
  sf_hash : string;
  sf_name : string;
  sf_should_show_progress : bool;
  sf_should_verify_checksum : bool;
  sf_required : bool;
  sf_download : string -> string -> M string
}.

Module LocalModelFile.

(** [LocalModelFile.download(self, blob_file_path, snapshot_dir)], with
    [url] for [self.url]. *)
Definition download (url blob_file_path snapshot_dir : string) : M string :=
  present <- os_path_exists url ;;
  if negb present then
    raise (FileNotFoundError ("No such file: '" +:+ url +:+ "'"))
  else
    shutil_copy url blob_file_path ;;;
    os_path_relpath blob_file_path snapshot_dir.

(** [LocalModelFile(url, header, hash, name, ...)]. *)
Definition new (url : string) (header : list (string * string))
    (hash name : string)
    (should_show_progress should_verify_checksum required : bool)
  : SnapshotFile :=
  MkSnapshotFile url header hash name should_show_progress
    should_verify_checksum required (download url).

End LocalModelFile.

Module URL.

(** The model store the adapter is given, by its three methods. *)
Record ModelStore : Type := MkModelStore {
  get_cached_files : string -> M (string * list string * bool);
  new_snapshot : string -> string -> list SnapshotFile -> M unit;
  get_snapshot_file_path : string -> string -> M string
}.

(** The attributes of a [URL] object.  [filename] is set by the base
    class. *)
Record t : Type := MkURL {
  model : string;
  type : string;
  directory : string;
  filename : string;
  store : option ModelStore
}.

Record Args : Type := MkArgs {
  args_store : string;
  args_quiet : bool
}.

(** [URL.__init__]: the attributes the constructor itself computes. *)
Definition init (model scheme filename : string) (store : option ModelStore) : t :=
  let split := Str.rsplit1 "/" model in
  MkURL model scheme
    (if (1 <? length split)%nat
     then Str.removeprefix (List.hd EmptyString split) "/" else EmptyString)
    filename store.

Section Methods.

(** What the classes outside these files provide: the registry constant,
    the base class's identifiers and model path, the plain
    [SnapshotFile.download], [download_file], [generate_sha256] and the
    symlink check of the base class. *)
Variable REGISTRY_URL : string.
Variable Model_extract_model_identifiers : t -> string * string * string.
Variable Model_model_path : t -> Args -> string.
Variable SnapshotFile_download : string -> string -> string -> M string.
Variable download_file : string -> string -> bool -> M unit.
Variable generate_sha256 : string -> string.
Variable check_valid_model_path : t -> string -> string -> M bool.

Definition extract_model_identifiers (self : t) : string * string * string :=
  let '(model_name, model_tag, model_organization) :=
    Model_extract_model_identifiers self in
  let parts := Str.split "/" model_organization in
  let '(model_tag, model_organization) :=
    if (2 <? length parts)%nat && String.eqb (last2 parts) "blob"
    then (last1 parts, Str.join "/" (but_last2 parts))
    else (model_tag, model_organization) in
  let '(model_tag, model_organization) :=
    if (2 <? length parts)%nat
       && Str.endswith REGISTRY_URL (List.hd EmptyString parts)
       && String.eqb (last2 parts) "resolve"
    then (last1 parts, Str.join "/" (but_last2 parts))
    else (model_tag, model_organization) in
  (model_name, model_tag, model_organization).

Definition _pull_with_model_store (self : t) (st : ModelStore) : M string :=
  let '(name, tag, _) := extract_model_identifiers self in
  cached <- get_cached_files st tag ;;
  let '(hash, _, all) := cached in
  if all then get_snapshot_file_path st hash name
  else
    let snapshot_hash := generate_sha256 name in
    let files :=
      if String.eqb (type self) "file" then
        [LocalModelFile.new (model self) [] snapshot_hash name false false true]
      else
        [MkSnapshotFile (type self +:+ "://" +:+ model self) []
           snapshot_hash name true false true
           (SnapshotFile_download (type self +:+ "://" +:+ model self))] in
    new_snapshot st tag snapshot_hash files ;;;
    get_snapshot_file_path st snapshot_hash name.

Definition pull (self : t) (args : Args) : M string :=
  match store self with
  | Some st => _pull_with_model_store self st
  | None =>
      let model_path := Model_model_path self args in
      let directory_path :=
        Path.joins (args_store args)
          ["repos"; type self; directory self; filename self] in
      os_makedirs directory_path ;;;
      let symlink_dir := Path.dirname model_path in
      os_makedirs symlink_dir ;;;
      let target_path := Path.join directory_path (filename self) in
      if String.eqb (type self) "file" then
        present <- os_path_exists (model self) ;;
        if negb present then
          raise (FileNotFoundError (model self +:+ " no such file"))
        else
          os_symlink (model self) (Path.join symlink_dir (filename self)) ;;;
          os_symlink (model self) target_path ;;;
          ret model_path
      else
        let show_progress := negb (args_quiet args) in
        let url := type self +:+ "://" +:+ model self in
        download_file url target_path show_progress ;;;
        relative_target_path <-
          os_path_relpath target_path (Path.dirname model_path) ;;
        valid <- check_valid_model_path self relative_target_path model_path ;;
        if valid then ret model_path
        else
          os_symlink relative_target_path model_path ;;;
          ret model_path
  end.

End Methods.

End URL.

(** ** A concrete platform

    [hashlib.sha256] and [json.loads], written out so that the model runs
    on concrete stores and registries. *)

Module SHA256.

Definition w32 (z : Z) : Z := z mod 4294967296.

Definition rotr (n x : Z) : Z :=
  Z.lor (Z.shiftr x n) (w32 (Z.shiftl x (32 - n))).

Definition ch (x y z : Z) : Z :=
  Z.lxor (Z.land x y) (Z.land (Z.lxor x 4294967295) z).

Definition maj (x y z : Z) : Z :=
  Z.lxor (Z.lxor (Z.land x y) (Z.land x z)) (Z.land y z).

Definition big_sigma0 (x : Z) : Z :=
  Z.lxor (Z.lxor (rotr 2 x) (rotr 13 x)) (rotr 22 x).
Definition big_sigma1 (x : Z) : Z :=
  Z.lxor (Z.lxor (rotr 6 x) (rotr 11 x)) (rotr 25 x).
Definition small_sigma0 (x : Z) : Z :=
  Z.lxor (Z.lxor (rotr 7 x) (rotr 18 x)) (Z.shiftr x 3).
Definition small_sigma1 (x : Z) : Z :=
  Z.lxor (Z.lxor (rotr 17 x) (rotr 19 x)) (Z.shiftr x 10).

(** The round constants and the initial hash value of FIPS 180-4. *)
Definition K : list Z :=
  [1116352408; 1899447441; 3049323471; 3921009573; 961987163; 1508970993;
   2453635748; 2870763221; 3624381080; 310598401; 607225278; 1426881987;
   1925078388; 2162078206; 2614888103; 3248222580; 3835390401; 4022224774;
   264347078; 604807628; 770255983; 1249150122; 1555081692; 1996064986;
   2554220882; 2821834349; 2952996808; 3210313671; 3336571891; 3584528711;
   113926993; 338241895; 666307205; 773529912; 1294757372; 1396182291;
   1695183700; 1986661051; 2177026350; 2456956037; 2730485921; 2820302411;
   3259730800; 3345764771; 3516065817; 3600352804; 4094571909; 275423344;
   430227734; 506948616; 659060556; 883997877; 958139571; 1322822218;
   1537002063; 1747873779; 1955562222; 2024104815; 2227730452; 2361852424;
   2428436474; 2756734187; 3204031479; 3329325298].

Definition H0 : list Z :=
  [1779033703; 3144134277; 1013904242; 2773480762; 1359893119; 2600822924;
   528734635; 1541459225].

(** The message followed by the bit 1, zeros up to 56 modulo 64 bytes,
    and the length in bits as a 64-bit big-endian number. *)
Fixpoint be_bytes (n : nat) (z : Z) : list Z :=
  match n with
  | O => []
  | S n' => (Z.shiftr z (8 * Z.of_nat n')) mod 256 :: be_bytes n' z
  end.

Definition pad (msg : list Z) : list Z :=
  let len := Z.of_nat (length msg) in
  let zeros := Z.to_nat ((55 - len) mod 64) in
  msg ++ [128] ++ repeat 0 zeros ++ be_bytes 8 (8 * len).

Fixpoint words (fuel : nat) (bytes : list Z) : list Z :=
  match fuel, bytes with
  | S f, a :: b :: c :: d :: rest =>
      (((a * 256 + b) * 256 + c) * 256 + d) :: words f rest
  | _, _ => []
  end.

(** The message schedule, newest word first. *)
Fixpoint extend (n : nat) (ws : list Z) : list Z :=
  match n with
  | O => ws
  | S n' =>
      let w := w32 (small_sigma1 (nth 1 ws 0) + nth 6 ws 0
                    + small_sigma0 (nth 14 ws 0) + nth 15 ws 0) in
      extend n' (w :: ws)
  end.

Definition schedule (block : list Z) : list Z := rev (extend 48 (rev block)).

Definition round (st : list Z) (kw : Z * Z) : list Z :=
  match st with
  | [a; b; c; d; e; f; g; h] =>
      let t1 := h + big_sigma1 e + ch e f g + fst kw + snd kw in
      let t2 := big_sigma0 a + maj a b c in
      [w32 (t1 + t2); a; b; c; w32 (d + t1); e; f; g]
  | _ => st
  end.

Definition compress (h : list Z) (block : list Z) : list Z :=
  List.map (fun p => w32 (fst p + snd p))
    (combine h (fold_left round (combine K (schedule block)) h)).

Fixpoint blocks (fuel : nat) (ws : list Z) (h : list Z) : list Z :=
  match fuel, ws with
  | S f, _ :: _ => blocks f (skipn 16 ws) (compress h (firstn 16 ws))
  | _, _ => h
  end.

Definition hex_digit (z : Z) : ascii :=
  ascii_of_nat (Z.to_nat (if z <? 10 then 48 + z else 87 + z)).

Fixpoint hex (n : nat) (z : Z) : string :=
  match n with
  | O => EmptyString
  | S n' => String (hex_digit ((Z.shiftr z (4 * Z.of_nat n')) mod 16)) (hex n' z)
  end.

Definition bytes_of (s : string) : list Z :=
  List.map (fun c => Z.of_nat (nat_of_ascii c)) (list_ascii_of_string s).

(** [hashlib.sha256(data).hexdigest()]. *)
Definition hexdigest (data : string) : string :=
  let padded := pad (bytes_of data) in
  let ws := words (length padded) padded in
  String.concat EmptyString (List.map (hex 8) (blocks (length ws) ws H0)).

End SHA256.

Module JSON.

Definition is_ws (c : ascii) : bool :=
  let n := nat_of_ascii c in
  ((n =? 32) || (n =? 9) || (n =? 10) || (n =? 13))%nat.

Fixpoint skip_ws (s : string) : string :=
  match s with
  | String c s' => if is_ws c then skip_ws s' else s
  | EmptyString => s
  end.

Definition digit (c : ascii) : option Z :=
  let n := nat_of_ascii c in
  if ((48 <=? n) && (n <=? 57))%nat then Some (Z.of_nat n - 48) else None.

Definition hex_value (c : ascii) : option Z :=
  let n := Z.of_nat (nat_of_ascii c) in
  if (48 <=? n) && (n <=? 57) then Some (n - 48)
  else if (97 <=? n) && (n <=? 102) then Some (n - 87)
  else if (65 <=? n) && (n <=? 70) then Some (n - 55)
  else None.

Fixpoint digits (acc : Z) (s : string) : Z * string :=
  match s with
  | String c s' =>
      match digit c with
      | Some d => digits (acc * 10 + d) s'
      | None => (acc, s)
      end
  | EmptyString => (acc, s)
  end.

(** An integer literal; a fraction or an exponent is outside the model. *)
Definition number (s : string) : option (Z * string) :=
  let '(neg, body) :=
    match s with
    | String "-" s' => (true, s')
    | _ => (false, s)
    end in
  match body with
  | String c _ =>
      match digit c with
      | Some _ =>
          let '(n, rest) := digits 0 body in
          match rest with
          | String "." _ | String "e" _ | String "E" _ => None
          | _ => Some (if neg then - n else n, rest)
          end
      | None => None
      end
  | EmptyString => None
  end.

Definition quote : ascii := ascii_of_nat 34.
Definition backslash : ascii := ascii_of_nat 92.

(** The character a two-character escape stands for. *)
Definition unescape (e : ascii) : option ascii :=
  if Ascii.eqb e quote then Some quote
  else if Ascii.eqb e backslash then Some backslash
  else if Ascii.eqb e "/" then Some "/"%char
  else if Ascii.eqb e "b" then Some (ascii_of_nat 8)
  else if Ascii.eqb e "f" then Some (ascii_of_nat 12)
  else if Ascii.eqb e "n" then Some (ascii_of_nat 10)
  else if Ascii.eqb e "r" then Some (ascii_of_nat 13)
  else if Ascii.eqb e "t" then Some (ascii_of_nat 9)
  else None.

(** The text of a string literal after its opening quote; [\u] escapes
    are accepted below 256 only. *)
Fixpoint str_body (s : string) : option (string * string) :=
  match s with
  | EmptyString => None
  | String c rest =>
      if Ascii.eqb c quote then Some (EmptyString, rest)
      else if Ascii.eqb c backslash then
        match rest with
        | String e rest1 =>
            if Ascii.eqb e "u" then
              match rest1 with
              | String a (String b (String h (String l rest2))) =>
                  match hex_value a, hex_value b, hex_value h, hex_value l,
                        str_body rest2 with
                  | Some 0, Some 0, Some hv, Some lv, Some (t, r) =>
                      Some (String (ascii_of_nat (Z.to_nat (16 * hv + lv))) t, r)
                  | _, _, _, _, _ => None
                  end
              | _ => None
              end
            else
              match unescape e, str_body rest1 with
              | Some c', Some (t, r) => Some (String c' t, r)
              | _, _ => None
              end
        | EmptyString => None
        end
      else if (nat_of_ascii c <? 32)%nat then None
      else
        match str_body rest with
        | Some (t, r) => Some (String c t, r)
        | None => None
        end
  end.

Fixpoint value (fuel : nat) (s : string) : option (json * string) :=
  match fuel with
  | O => None
  | S f =>
      match skip_ws s with
      | String "{" rest =>
          match skip_ws rest with
          | String "}" rest' => Some (JObj [], rest')
          | _ =>
              match members f rest with
              | Some (ms, rest') => Some (JObj ms, rest')
              | None => None
              end
          end
      | String "[" rest =>
          match skip_ws rest with
          | String "]" rest' => Some (JArr [], rest')
          | _ =>
              match elements f rest with
              | Some (vs, rest') => Some (JArr vs, rest')
              | None => None
              end
          end
      | String c rest as s' =>
          if Ascii.eqb c quote then
            match str_body rest with
            | Some (t, rest') => Some (JStr t, rest')
            | None => None
            end
          else if Str.startswith s' "true" then Some (JBool true, Str.drop 4 s')
          else if Str.startswith s' "false" then Some (JBool false, Str.drop 5 s')
          else if Str.startswith s' "null" then Some (JNull, Str.drop 4 s')
          else match number s' with
               | Some (n, rest) => Some (JNum n, rest)
               | None => None
               end
      | EmptyString => None
      end
  end
with elements (fuel : nat) (s : string) : option (list json * string) :=
  match fuel with
  | O => None
  | S f =>
      match value f s with
      | Some (v, rest) =>
          match skip_ws rest with
          | String "," rest' =>
              match elements f rest' with
              | Some (vs, rest'') => Some (v :: vs, rest'')
              | None => None
              end
          | String "]" rest' => Some ([v], rest')
          | _ => None
          end
      | None => None
      end
  end
with members (fuel : nat) (s : string) : option (list (string * json) * string) :=
  match fuel with
  | O => None
  | S f =>
      match skip_ws s with
      | String c rest =>
          match (if Ascii.eqb c quote then str_body rest else None) with
          | Some (k, rest1) =>
              match skip_ws rest1 with
              | String ":" rest2 =>
                  match value f rest2 with
                  | Some (v, rest3) =>
                      match skip_ws rest3 with
                      | String "," rest4 =>
                          match members f rest4 with
                          | Some (ms, rest5) => Some ((k, v) :: ms, rest5)
                          | None => None
                          end
                      | String "}" rest4 => Some ([(k, v)], rest4)
                      | _ => None
                      end
                  | None => None
                  end
              | _ => None
              end
          | None => None
          end
      | EmptyString => None
      end
  end.

(** [json.loads(data)]; [None] is [JSONDecodeError]. *)
Definition loads (data : string) : option json :=
  match value (S (String.length data)) data with
  | Some (v, rest) =>
      match skip_ws rest with
      | EmptyString => Some v
      | _ => None
      end
  | None => None
  end.

Fixpoint escape (s : string) : string :=
  match s with
  | EmptyString => EmptyString
  | String c rest =>
      if Ascii.eqb c quote || Ascii.eqb c backslash
      then String backslash (String c (escape rest))
      else if (nat_of_ascii c <? 32)%nat
      then String backslash
             ("u00" +:+ SHA256.hex 2 (Z.of_nat (nat_of_ascii c)) +:+ escape rest)
      else String c (escape rest)
  end.

Definition quoted (s : string) : string :=
  String quote (escape s +:+ String quote EmptyString).

(** [json.dumps(j)]. *)
Fixpoint dumps (j : json) : string :=
  match j with
  | JNull => "null"
  | JBool true => "true"
  | JBool false => "false"
  | JNum n => show_Z n
  | JStr s => quoted s
  | JArr items =>
      "[" +:+ (fix go (l : list json) : string :=
                 match l with
                 | [] => EmptyString
                 | [v] => dumps v
                 | v :: rest => dumps v +:+ ", " +:+ go rest
                 end) items +:+ "]"
  | JObj members =>
      "{" +:+ (fix go (l : list (string * json)) : string :=
                 match l with
                 | [] => EmptyString
                 | [(k, v)] => quoted k +:+ ": " +:+ dumps v
                 | (k, v) :: rest => quoted k +:+ ": " +:+ dumps v +:+ ", " +:+ go rest
                 end) members +:+ "}"
  end.

End JSON.

(** ** A registry, a store and the references of the design document *)

Module Scenario.

(** A server answering from a table of URLs; anything else is not found
    (curl's status 22). *)
Fixpoint serve (routes : list (string * string)) (url : string) (offset : nat)
  : Z * string :=
  match routes with
  | [] => (22, EmptyString)
  | (u, data) :: rest =>
      if String.eqb u url then (0, Str.drop offset data) else serve rest url offset
  end.

Definition accept : string :=
  "Accept: application/vnd.docker.distribution.manifest.v2+json".

Definition model_data : string := "GGUF tiny model weights".
Definition config_data : string := "{}".
Definition license_data : string := "MIT".

Definition model_digest : string :=
  Eval vm_compute in "sha256:" +:+ SHA256.hexdigest model_data.
Definition config_digest : string :=
  Eval vm_compute in "sha256:" +:+ SHA256.hexdigest config_data.
Definition license_digest : string :=
  Eval vm_compute in "sha256:" +:+ SHA256.hexdigest license_data.

Definition layer (digest media_type : string) : json :=
  JObj [("mediaType", JStr media_type); ("digest", JStr digest)].

Definition manifest_of (layers : list json) : json :=
  JObj [("schemaVersion", JNum 2);
        ("config", JObj [("digest", JStr config_digest)]);
        ("layers", JArr layers)].

(** The manifest of [library/tiny:latest]: one model layer, one license. *)
Definition manifest : json :=
  manifest_of [layer model_digest model_media_type;
               layer license_digest "application/vnd.ollama.image.license"].

(** The manifest of [library/notes:latest]: no model layer. *)
Definition manifest_without_model : json :=
  manifest_of [layer license_digest "application/vnd.ollama.image.license"].

Definition v2 : string := "https://registry.ollama.ai/v2/".

Definition routes : list (string * string) :=
  [(v2 +:+ "library/tiny/manifests/latest", JSON.dumps manifest);
   (v2 +:+ "library/tiny/blobs/" +:+ config_digest, config_data);
   (v2 +:+ "library/tiny/blobs/" +:+ model_digest, model_data);
   (v2 +:+ "library/notes/manifests/latest", JSON.dumps manifest_without_model);
   (v2 +:+ "library/notes/blobs/" +:+ config_digest, config_data)].

(** The same registry with a damaged model blob. *)
Definition corrupt_routes : list (string * string) :=
  [(v2 +:+ "library/tiny/manifests/latest", JSON.dumps manifest);
   (v2 +:+ "library/tiny/blobs/" +:+ config_digest, config_data);
   (v2 +:+ "library/tiny/blobs/" +:+ model_digest, "GGUF tiny model weightz")].

(** An OCI registry with one artifact holding one model file, and one
    holding two. *)
Definition oci (target : string) : Z * list (string * string) :=
  if String.eqb target "registry.acme.org/ns/repo:tag"
  then (0, [("model.gguf", model_data); ("README.md", "tiny")])
  else if String.eqb target "registry.acme.org/ns/pair:tag"
  then (0, [("a.gguf", model_data); ("b.gguf", model_data)])
  else (1, []).

Definition hf (repo filename : string) : Z * string :=
  if String.eqb repo "acme/tiny-GGUF" && String.eqb filename "tiny.gguf"
  then (0, model_data) else (1, EmptyString).

Definition platform_with (routes : list (string * string)) : platform :=
  Platform SHA256.hexdigest JSON.loads (serve routes) oci hf (fun _ _ => 0).

Definition P : platform := platform_with routes.
Definition P_corrupt : platform := platform_with corrupt_routes.

Definition store : string := "/var/lib/ramalama".

(** [mkdirs(ramalama_store)] of [main]: the layout every run starts
    with. *)
Definition mkdirs (ramalama_store : string) : M unit :=
  for_each
    ["models/huggingface"; "repos/huggingface"; "models/oci"; "repos/oci";
     "models/ollama"; "repos/ollama"]
    (fun directory => os_makedirs (Path.join ramalama_store directory)).

Definition empty_world : world :=
  World {[ "/" := Dir ]} "/root" [] [] [].

(** The store after [mkdirs], with an empty trace. *)
Definition w0 : world :=
  Eval vm_compute in
    World (fs (snd (mkdirs store empty_world))) "/root" [] [] [].

Definition pull (Pl : platform) (ref : string) (w : world) : outcome string * world :=
  pull_cli Pl store [ref] "8080" w.

(** The store after [tiny] has been pulled from the registry. *)
Definition w_tiny : world := Eval vm_compute in snd (pull P "tiny" w0).

Definition blobs : string := store +:+ "/repos/ollama/blobs/".

(** The store while [notes] is pulled: after the manifest has been
    fetched, and at the end. *)
Definition w_notes_manifest : world :=
  Eval vm_compute in
    snd (pull_ollama_manifest P (store +:+ "/repos/ollama")
           (Path.joins (store +:+ "/repos/ollama")
              ["manifests"; "https://registry.ollama.ai"; "library/notes"; "latest"])
           accept "https://registry.ollama.ai/v2/library/notes" "latest" w0).

Definition w_notes : world := Eval vm_compute in snd (pull P "notes" w0).


End Scenario.

(** ** The resolver as the design document words it *)

(** Ollama references by the document's rule: the tag is what follows the
    last colon. *)
Definition spec_ollama_name_tag (model_full : string) : string * string :=
  match Str.rcut ":" model_full with
  | Some (model_name, model_tag) => (model_name, model_tag)
  | None => (model_full, "latest")
  end.


Module UrlScenario.

(** The registry constant of the Hugging Face adapter and its host. *)
Definition REGISTRY_URL : string := "https://huggingface.co".
Definition host : string := "huggingface.co".

(** A URL object whose base class reports the identifiers [ids]. *)
Definition self : URL.t :=
  URL.init "co/acme/resolve/main/tiny.gguf" "https" "tiny.gguf" None.

Definition base_of (ids : string * string * string)
  : URL.t -> string * string * string := fun _ => ids.

End UrlScenario.

(** ** Vocabulary of the properties *)

(** The message of [oci_target_decompose] for a reference without a
    registry. *)
Definition oci_registry_message (model : string) : string :=
  "You must specify a registry for the model in the form "
  +:+ "'oci://registry.acme.org/ns/repo:tag', got instead: " +:+ model.

(** A computation respects a relation between worlds when every run of
    it, however it ends, leaves a world related to the one it started in. *)
Definition respects {A} (R : world -> world -> Prop) (m : M A) : Prop :=
  forall w r w', m w = (r, w') -> R w w'.

(** The digest a blob's file name carries: the text after the prefix
    [sha256:] of the base name, up to the next colon or the end. *)
Definition embedded_digest (filename : string) : option string :=
  let fn_base := Path.basename filename in
  if Str.startswith fn_base "sha256:" then
    let rest := Str.drop 7 fn_base in
    match Str.cut ":" rest with
    | Some (digest, _) => Some digest
    | None => Some rest
    end
  else None.


(** The [try] block of [run_curl_cmd]: the command, with its handler. *)
Definition fetch (P : platform) (args : list string) (filename : string) : M unit :=
  try_except_CalledProcessError
    (run_cmd P args ;;; ret tt)
    (fun _ returncode =>
       when (returncode =? 22) (print_error (filename +:+ " not found")) ;;;
       sys_exit returncode).


(** The world only grows: same working directory, the trace and the two
    streams extended. *)
Definition grows (w w' : world) : Prop :=
  cwd w' = cwd w
  /\ (exists evs, trace w' = trace w ++ evs)
  /\ (exists out, stdout w' = stdout w ++ out)
  /\ (exists err, stderr w' = stderr w ++ err).

(** No symbolic link is created, removed or retargeted. *)
Definition keeps_links (w w' : world) : Prop :=
  cwd w' = cwd w
  /\ forall k t, fs w' !! k = Some (Link t) <-> fs w !! k = Some (Link t).

(** What [pull_cli] derives from an Ollama reference. *)
Definition ollama_model (ref : string) : string := Str.removeprefix ref "ollama://".

Definition ollama_name (ref : string) : string :=
  fst (ollama_name_tag (ollama_model_full (ollama_model ref))).

Definition ollama_tag (ref : string) : string :=
  snd (ollama_name_tag (ollama_model_full (ollama_model ref))).

Definition ollama_accept : string :=
  "Accept: application/vnd.docker.distribution.manifest.v2+json".

Definition ollama_repos (store : string) : string := store +:+ "/repos/ollama".

Definition ollama_models (store : string) : string := store +:+ "/models/ollama".

Definition ollama_symlink_path (store ref : string) : string :=
  Path.join (ollama_models store)
    (Path.basename (ollama_name ref) +:+ ":" +:+ ollama_tag ref).

Definition ollama_manifests (store ref : string) : string :=
  Path.joins (ollama_repos store)
    ["manifests"; "https://registry.ollama.ai"; ollama_name ref; ollama_tag ref].

Definition ollama_registry_head (ref : string) : string :=
  "https://registry.ollama.ai" +:+ "/v2/" +:+ ollama_name ref.

Definition ollama_manifest_url (ref : string) : string :=
  ollama_registry_head ref +:+ "/manifests/" +:+ ollama_tag ref.

Definition ollama_manifest_cmd (store ref : string) : list string :=
  ["curl"; "-f"; "-s"; "--header"; ollama_accept;
   "-o"; ollama_manifests store ref; ollama_manifest_url ref].


(** [init_pull] with the arguments [pull_cli] gives it. *)
Definition ollama_init_pull (P : platform) (store ref : string) : M string :=
  init_pull P (ollama_repos store) (ollama_manifests store ref) ollama_accept
    (ollama_registry_head ref) (ollama_name ref) (ollama_tag ref)
    (ollama_models store) (ollama_symlink_path store ref) (ollama_model ref).


(** A layer [init_pull] passes over: it has a digest and a media type, and
    the media type is not the model's. *)
Definition other_layer (layer : json) : bool :=
  match getitem layer "digest", getitem layer "mediaType" with
  | Ok _, Ok media_type => negb (json_eq_str media_type model_media_type)
  | _, _ => false
  end.

(** What [pull_oci] derives from a decomposed reference. *)
Definition oci_outdir (store registry reference_dir : string) : string :=
  store +:+ "/repos/oci/" +:+ registry +:+ "/" +:+ reference_dir.

Definition oci_directory (store registry reference_dir : string) : string :=
  store +:+ "/models/oci/" +:+ registry +:+ "/" +:+ reference_dir.

Definition oci_pull_cmd (store target registry reference_dir : string) : list string :=
  ["omlmd"; "pull"; target; "--output"; oci_outdir store registry reference_dir].

(** The model files of a directory listing. *)
Definition ggufs_of (files : list string) : list string :=
  filter (fun file => Str.endswith file ".gguf" = true) files.

Definition add_stdout (msg : string) (w : world) : world :=
  World (fs w) (cwd w) (stdout w ++ [msg]) (stderr w) (trace w).

(** The entry at a path, links not followed, is absent or a link. *)
Definition free_or_link (w : world) (p : string) : bool :=
  match fs w !! key w p with
  | None | Some (Link _) => true
  | Some _ => false
  end.


(** No regular file is removed or rewritten. *)
Definition keeps_files (w w' : world) : Prop :=
  cwd w' = cwd w
  /\ forall k data, fs w !! k = Some (File data) -> fs w' !! k = Some (File data).

Definition oci_symlink_path (store registry reference_dir gguf : string) : string :=
  oci_directory store registry reference_dir +:+ "/" +:+ gguf.

Definition oci_downloading (target : string) : string :=
  "Downloading " +:+ target +:+ "...".

Definition oci_unidentified (outdir : string) : string :=
  "Error: Unable to identify .gguf file in: " +:+ outdir.

Module OciScenario.

Definition registry : string := "registry.acme.org".

(** The store after [omlmd pull] for the artifact with one model file and
    for the one with two, and after the directory of the link is made. *)
Definition w_repo : world :=
  Eval vm_compute in
    snd (run_cmd Scenario.P
           (oci_pull_cmd Scenario.store "registry.acme.org/ns/repo:tag" registry
              "ns/repo/tag")
           (add_stdout (oci_downloading "registry.acme.org/ns/repo:tag") Scenario.w0)).

Definition w_pair : world :=
  Eval vm_compute in
    snd (run_cmd Scenario.P
           (oci_pull_cmd Scenario.store "registry.acme.org/ns/pair:tag" registry
              "ns/pair/tag")
           (add_stdout (oci_downloading "registry.acme.org/ns/pair:tag") Scenario.w0)).

Definition w_repo_dir : world :=
  Eval vm_compute in
    snd (os_makedirs (oci_directory Scenario.store registry "ns/repo/tag") w_repo).

Definition link : string :=
  "/var/lib/ramalama/models/oci/registry.acme.org/ns/repo/tag/model.gguf".

Definition target : string :=
  "../../../../../../repos/oci/registry.acme.org/ns/repo/tag/model.gguf".

End OciScenario.

Module FileScenario.

Definition source : string := "/home/user/tiny.gguf".
Definition blob : string := "/var/lib/ramalama/repos/file/blobs/sha256-tiny".
Definition snapshot_dir : string := "/var/lib/ramalama/repos/file/snapshots/tiny".

(** The store of the scenario beside a model file in a home directory. *)
Definition w_file : world :=
  Eval vm_compute in
    World (<[source := File Scenario.model_data]> (fs Scenario.w0)) "/root" [] [] [].

End FileScenario.

(** What [URL.pull] derives from the object and the arguments. *)
Definition url_directory_path (self : URL.t) (args : URL.Args) : string :=
  Path.joins (URL.args_store args)
    ["repos"; URL.type self; URL.directory self; URL.filename self].

Definition url_target_path (self : URL.t) (args : URL.Args) : string :=
  Path.join (url_directory_path self args) (URL.filename self).

Definition url_link_path (model_path : string) (self : URL.t) : string :=
  Path.join (Path.dirname model_path) (URL.filename self).

(** Nothing is at the path, not even a dangling link, and the path is not
    empty. *)
Definition vacant (w : world) (p : string) : bool :=
  negb (String.eqb p EmptyString)
  && match fs w !! key w p with None => true | Some _ => false end.

Module UrlFileScenario.

Definition self : URL.t :=
  URL.init FileScenario.source "file" "tiny.gguf" None.

Definition missing : URL.t :=
  URL.init "/home/user/none.gguf" "file" "none.gguf" None.

Definition args : URL.Args := URL.MkArgs Scenario.store false.

(** The model path the base class gives: the store's [models] mirror of
    the source path. *)
Definition model_path (self : URL.t) (args : URL.Args) : string :=
  URL.args_store args +:+ "/models/file/" +:+ URL.directory self
  +:+ "/" +:+ URL.filename self.

Definition w_dirs (self : URL.t) : world :=
  snd (os_makedirs (Path.dirname (model_path self args))
         (snd (os_makedirs (url_directory_path self args) FileScenario.w_file))).

Definition w1 : world :=
  Eval vm_compute in
    snd (os_makedirs (url_directory_path self args) FileScenario.w_file).
Definition w2 : world := Eval vm_compute in w_dirs self.
Definition w1_missing : world :=
  Eval vm_compute in
    snd (os_makedirs (url_directory_path missing args) FileScenario.w_file).
Definition w2_missing : world := Eval vm_compute in w_dirs missing.

(** The parts of the adapter that the file scheme does not reach. *)
Definition no_download (url blob dir : string) : M string := raise (OSError "unused").
Definition no_download_file (url target : string) (progress : bool) : M unit :=
  raise (OSError "unused").
Definition no_check (self : URL.t) (target path : string) : M bool := ret false.

Definition pull (self : URL.t) (w : world) : outcome string * world :=
  URL.pull UrlScenario.REGISTRY_URL (UrlScenario.base_of ("tiny.gguf", "latest", "home/user"))
    model_path no_download no_download_file SHA256.hexdigest no_check self args w.

End UrlFileScenario.

(** What [pull_huggingface] derives from a reference [directory/filename]. *)
Definition hf_cmd (store directory filename : string) : list string :=
  ["huggingface-cli"; "download"; directory; filename;
   "--cache-dir"; store +:+ "/repos/huggingface/.cache";
   "--local-dir"; store +:+ "/repos/huggingface/" +:+ directory].

Definition hf_directory (store directory : string) : string :=
  store +:+ "/models/huggingface/" +:+ directory.

Definition hf_symlink_path (store directory filename : string) : string :=
  hf_directory store directory +:+ "/" +:+ filename.

Definition unpack_error : exn :=
  ValueError "not enough values to unpack (expected 2, got 1)".

Module HfScenario.

Definition directory : string := "acme/tiny-GGUF".
Definition filename : string := "tiny.gguf".
Definition ref : string := "huggingface://acme/tiny-GGUF/tiny.gguf".

Definition link : string :=
  "/var/lib/ramalama/models/huggingface/acme/tiny-GGUF/tiny.gguf".
Definition target : string :=
  "../../../../repos/huggingface/acme/tiny-GGUF/tiny.gguf".

(** What [huggingface-cli] prints: the path of the file and a newline. *)
Definition printed : string :=
  Eval vm_compute in
    "/var/lib/ramalama/repos/huggingface/acme/tiny-GGUF/tiny.gguf"
    +:+ String (ascii_of_nat 10) EmptyString.

(** The store after the download and after the directory of the link is
    made, in a first pull and in a second one. *)
Definition after_download (w : world) : world :=
  snd (run_cmd Scenario.P (hf_cmd Scenario.store directory filename) w).
Definition after_makedirs (w : world) : world :=
  snd (os_makedirs (hf_directory Scenario.store directory) w).

Definition w_run : world := Eval vm_compute in after_download Scenario.w0.
Definition w_dir : world := Eval vm_compute in after_makedirs w_run.
Definition w_hf : world :=
  Eval vm_compute in snd (pull_huggingface Scenario.P ref Scenario.store Scenario.w0).
Definition w_run2 : world := Eval vm_compute in after_download w_hf.
Definition w_dir2 : world := Eval vm_compute in after_makedirs w_run2.

End HfScenario.

(** The request [pull_ollama_blob] makes for a layer. *)
Definition layer_cmd (accept blob_path url : string) : list string :=
  ["curl"; "-f"; "-L"; "-C"; "-"; "--progress-bar"; "--header";
   accept; "-o"; blob_path; url].

(** The world after a command has written [data] at the place [k]. *)
Definition downloaded (cmd : list string) (k data : string) (w : world) : world :=
  log (Write k) (with_fs (log (Run cmd) w) (<[k := File data]> (fs w))).

Module UnverifiedScenario.

(** The store after the damaged layer is downloaded and the directory of
    the link made. *)
Definition w2 : world :=
  Eval vm_compute in
    snd (os_makedirs (ollama_models Scenario.store)
           (downloaded
              (layer_cmd ollama_accept
                 (Path.joins (ollama_repos Scenario.store)
                    ["blobs"; Scenario.model_digest])
                 (ollama_registry_head "tiny" +:+ "/blobs/" +:+ Scenario.model_digest))
              (key Scenario.w0
                 (Path.joins (ollama_repos Scenario.store)
                    ["blobs"; Scenario.model_digest]))
              "GGUF tiny model weightz" Scenario.w0)).

End UnverifiedScenario.

(** ** [ramalama.py]: listing, pushing, running and [main] *)

(** [human_duration(d)] for a whole number of seconds; [//] is floor
    division. *)
Definition human_duration (d : Z) : string :=
  if d <? 1 then "Less than a second"
  else if d =? 1 then "1 second"
  else if d <? 60 then show_Z d +:+ " seconds"
  else if d <? 120 then "1 minute"
  else if d <? 3600 then show_Z (d / 60) +:+ " minutes"
  else if d <? 7200 then "1 hour"
  else if d <? 86400 then show_Z (d / 3600) +:+ " hours"
  else if d <? 172800 then "1 day"
  else if d <? 604800 then show_Z (d / 86400) +:+ " days"
  else if d <? 1209600 then "1 week"
  else if d <? 2419200 then show_Z (d / 604800) +:+ " weeks"
  else if d <? 4838400 then "1 month"
  else if d <? 31536000 then show_Z (d / 2419200) +:+ " months"
  else if d <? 63072000 then "1 year"
  else show_Z (d / 31536000) +:+ " years".

(** The units of [human_duration]: the seconds in one unit, its name, and
    the duration at which the next unit takes over (none for years). *)
Definition duration_units : list (Z * string * option Z) :=
  [(1, "second", Some 60);
   (60, "minute", Some 3600);
   (3600, "hour", Some 86400);
   (86400, "day", Some 604800);
   (604800, "week", Some 2419200);
   (2419200, "month", Some 31536000);
   (31536000, "year", None)].

Definition below (d : Z) (bound : option Z) : Prop :=
  match bound with
  | Some b => d < b
  | None => True
  end.

(** The process environment [main] reads: the platform name, the programs
    on the search path, the effective user, the home directory, the
    [RAMALAMA_HOST] variable, the path of the script (a file named
    [ramalama.py], as [usage] prints it), and the exit status of a command
    run in a given directory. *)
Record environment : Type := Environment {
  sys_platform : string;
  which : string -> bool;
  geteuid : Z;
  home : string;
  RAMALAMA_HOST : option string;
  script : string;
  status_in : list string -> string -> Z
}.

(** How a command-line function ends when it does not fail: it returns, or
    [os.execvp] has replaced the process by another program. *)
Inductive finished : Type :=
| Returned
| Replaced (argv : list string).

(** [try: m except ...: h], for the exceptions [h] handles. *)
Definition try_except {A} (m : M A) (h : exn -> option (M A)) : M A := fun w =>
  match m w with
  | (Raise e, w') =>
      match h e with
      | Some k => k w'
      | None => (Raise e, w')
      end
  | r => r
  end.

Section Main.

Variable E : environment.
Variable P : platform.

(** [list_cli], whose table depends on the clock and on [du]. *)
Variable list_cli : string -> list string -> string -> M unit.

Definition get_ramalama_store : string :=
  if geteuid E =? 0 then "/var/lib/ramalama"
  else home E +:+ "/.local/share/ramalama".

Definition available (cmd : string) : bool := which E cmd.

Definition select_container_manager : string :=
  if String.eqb (sys_platform E) "darwin" then EmptyString
  else if available "podman" then "podman"
  else if available "docker" then "docker"
  else EmptyString.

(** [exec_cmd(args)]: the process becomes [args]. *)
Definition exec_cmd (args : list string) : M finished :=
  when x (print (Str.join " " args)) ;;;
  ret (Replaced args).

(** [run_cmd(args, cwd=cwd)] for a command that writes nothing to the
    store. *)
Definition run_cmd_in (args : list string) (cwd : string) : M string :=
  when x (print (Str.join " " args)) ;;;
  fun w =>
    let rc := status_in E args cwd in
    if rc =? 0 then (Ok EmptyString, log (Run args) w)
    else (Raise (CalledProcessError args rc), log (Run args) w).

(** [str(Path(p).resolve())]. *)
Definition path_resolve (p : string) : M string := fun w =>
  (Ok (match follow w p with Some k => k | None => key w p end), w).

Definition push_oci (ramalama_store model target : string) : M string :=
  decomposed <- oci_target_decompose model ;;
  let '(_, registry, _, reference_dir) := decomposed in
  let target := Str.removeprefix target "oci://" in
  let local_model_path :=
    Path.joins ramalama_store ["models/oci"; registry; reference_dir] in
  present <- os_path_exists local_model_path ;;
  (if negb present then
     print_error ("Model " +:+ model +:+ " not found locally. Cannot push.") ;;;
     sys_exit 1
   else ret tt) ;;;
  model_file <- path_resolve local_model_path ;;
  try_except_CalledProcessError
    (run_cmd_in ["omlmd"; "push"; target; model_file; "--empty-metadata"]
       (Path.dirname model_file) ;;; ret tt)
    (fun cmd returncode =>
       print_error ("Failed to push model to OCI: "
                    +:+ str_CalledProcessError cmd returncode) ;;;
       sys_exit returncode) ;;;
  ret local_model_path.

Definition push_cli (ramalama_store : string) (args : list string) (port : string)
  : M string :=
  match args with
  | model :: target :: _ =>
      if Str.startswith model "oci://" then push_oci ramalama_store model target
      else
        print_error ("Unsupported repository type for model: " +:+ model) ;;;
        sys_exit 1
  | _ => usage
  end.

Definition run_cli (ramalama_store : string) (args : list string) (port : string)
  : M finished :=
  match args with
  | [] => usage
  | _ :: _ =>
      symlink_path <- pull_cli P ramalama_store args port ;;
      exec_cmd ["llama-cli"; "-m"; symlink_path; "--log-disable"; "-cnv"; "-p";
                "You are a helpful assistant"]
  end.

Definition serve_cli (ramalama_store : string) (args : list string) (port : string)
  : M finished :=
  match args with
  | [] => usage
  | _ :: _ =>
      symlink_path <- pull_cli P ramalama_store args port ;;
      exec_cmd ["llama-server"; "--port"; port; "-m"; symlink_path]
  end.

(** [funcDict]: the command names and their functions. *)
Definition funcDict (cmd : string)
  : option (string -> list string -> string -> M finished) :=
  if String.eqb cmd "list" || String.eqb cmd "ls" then
    Some (fun store args port => list_cli store args port ;;; ret Returned)
  else if String.eqb cmd "pull" then
    Some (fun store args port => pull_cli P store args port ;;; ret Returned)
  else if String.eqb cmd "push" then
    Some (fun store args port => push_cli store args port ;;; ret Returned)
  else if String.eqb cmd "run" then Some run_cli
  else if String.eqb cmd "serve" then Some serve_cli
  else None.

Definition newline : string := String (ascii_of_nat 10) EmptyString.

(** The [while] loop of [main]: [--dryrun] flags are consumed up to the
    first command name; any other word ends the run with the usage text. *)
Fixpoint scan_flags (args : list string) (dryrun : bool)
  : M (list string * bool) :=
  match args with
  | [] => ret ([], dryrun)
  | arg :: rest =>
      if String.eqb arg "--dryrun" then scan_flags rest true
      else
        match funcDict arg with
        | Some _ => ret (args, dryrun)
        | None =>
            print ("Error: unrecognized command `" +:+ arg +:+ "`" +:+ newline) ;;;
            usage
        end
  end.

Definition conman_args (conman ramalama_store host port : string)
    (args : list string) : list string :=
  [conman; "run"; "--rm"; "-it"; "--security-opt=label=disable";
   "-v" +:+ ramalama_store +:+ ":/var/lib/ramalama";
   "-v" +:+ home E +:+ ":" +:+ home E; "-v/tmp:/tmp";
   "-v" +:+ script E +:+ ":" +:+ script E; "-e"; "RAMALAMA_HOST";
   "-p"; host +:+ ":" +:+ port; "quay.io/ramalama/ramalama:latest"; script E]
  ++ args.

(** [main(args)].  The handler of [KeyError] names [cmd], which is bound
    when the command is taken from the arguments; no step before that
    raises [KeyError], so the handler is placed around the call of the
    command. *)
Definition main (args : list string) : M finished :=
  let conman := select_container_manager in
  let ramalama_store := get_ramalama_store in
  Scenario.mkdirs ramalama_store ;;;
  try_except
    (scanned <- scan_flags args false ;;
     let '(args, dryrun) := scanned in
     let port := "8080" in
     let host := match RAMALAMA_HOST E with Some h => h | None => port end in
     port <- (if negb (String.eqb host port) then
                match Str.rsplit1 ":" host !! 1%nat with
                | Some p => ret p
                | None => raise IndexError
                end
              else ret port) ;;
     if negb (String.eqb conman EmptyString) then
       if dryrun then
         print (Str.join " " (conman_args conman ramalama_store host port args)) ;;;
         ret Returned
       else exec_cmd (conman_args conman ramalama_store host port args)
     else
       match args with
       | [] => raise IndexError
       | cmd :: args =>
           try_except
             (match funcDict cmd with
              | Some command => command ramalama_store args port
              | None => raise (KeyError cmd)
              end)
             (fun e =>
                match e with
                | KeyError _ => Some (print (cmd +:+ " not valid" +:+ newline) ;;; usage)
                | _ => None
                end)
       end)
    (fun e =>
       match e with
       | IndexError => Some usage
       | _ => None
       end).

End Main.

(** ** Vocabulary of the command line *)

Definition commands : list string := ["list"; "ls"; "pull"; "push"; "run"; "serve"].

Definition usage_lines : list string :=
  ["Usage:"; "  ramalama.py COMMAND"; EmptyString; "Commands:";
   "  list              List models"; "  pull MODEL        Pull a model";
   "  push MODEL TARGET Push a model to target"; "  run MODEL         Run a model";
   "  serve MODEL       Serve a model"].

(** The world after some lines have been printed. *)
Definition printed (lines : list string) (w : world) : world :=
  World (fs w) (cwd w) (stdout w ++ lines) (stderr w) (trace w).

Definition unrecognized (arg : string) : string :=
  "Error: unrecognized command `" +:+ arg +:+ "`" +:+ newline.

Definition not_valid (cmd : string) : string := cmd +:+ " not valid" +:+ newline.

Definition dryrun_flags (n : nat) : list string := repeat "--dryrun" n.

(** The words left after the flags are nothing, or start with a command. *)
Definition ready (rest : list string) : Prop :=
  match rest with
  | [] => True
  | arg :: _ => In arg commands
  end.

(** The host and port a run works with: [8080] for both when
    [RAMALAMA_HOST] is unset or is [8080], else the variable and what
    follows its last colon. *)
Definition listens (E : environment) (host port : string) : Prop :=
  ((RAMALAMA_HOST E = None \/ RAMALAMA_HOST E = Some "8080")
   /\ host = "8080" /\ port = "8080")
  \/ (exists address, RAMALAMA_HOST E = Some host
      /\ host = address +:+ ":" +:+ port /\ Str.contains ":" port = false).

(** * Properties *)

(** ** Strings *)

Lemma cut_spec (c : ascii) (s l r : string) :
  Str.cut c s = Some (l, r) ->
  s = l +:+ String c r /\ Str.contains c l = false.
Proof.
  revert l r. induction s as [|a s IH]; intros l r H; simpl in H.
  - discriminate.
  - destruct (Ascii.eqb a c) eqn:E.
    + apply Ascii.eqb_eq in E. inversion H; subst. simpl. auto.
    + destruct (Str.cut c s) as [[l' r']|] eqn:Hc; [|discriminate].
      inversion H; subst. destruct (IH l' r eq_refl) as [-> Hn].
      simpl. rewrite E. auto.
Qed.

Lemma cut_none (c : ascii) (s : string) :
  Str.cut c s = None <-> Str.contains c s = false.
Proof.
  induction s as [|a s IH]; simpl.
  - tauto.
  - destruct (Ascii.eqb a c).
    + split; discriminate.
    + destruct (Str.cut c s) as [[l r]|].
      * split; [discriminate|]. intros H. apply IH in H. discriminate.
      * tauto.
Qed.

Lemma cut_app (c : ascii) (l r : string) :
  Str.contains c l = false -> Str.cut c (l +:+ String c r) = Some (l, r).
Proof.
  induction l as [|a l IH]; simpl; intros H.
  - rewrite Ascii.eqb_refl. reflexivity.
  - destruct (Ascii.eqb a c); [discriminate|]. rewrite (IH H). reflexivity.
Qed.

Lemma contains_app (c : ascii) (l r : string) :
  Str.contains c (l +:+ r) = Str.contains c l || Str.contains c r.
Proof.
  induction l as [|a l IH]; simpl; [reflexivity|].
  destruct (Ascii.eqb a c); auto.
Qed.

Lemma startswith_app (p s : string) : Str.startswith (p +:+ s) p = true.
Proof.
  induction p as [|a p IH]; simpl; [destruct s; reflexivity|].
  rewrite Ascii.eqb_refl. exact IH.
Qed.

Lemma drop_app (p s : string) : Str.drop (String.length p) (p +:+ s) = s.
Proof. induction p as [|a p IH]; simpl; auto. Qed.

Lemma removeprefix_app (p s : string) : Str.removeprefix (p +:+ s) p = s.
Proof. unfold Str.removeprefix. rewrite startswith_app. apply drop_app. Qed.

(** ** C5: Ollama references *)

(** C5, as the document states it, fails: the resolver cuts at the first
    colon, not the last.  For [myorg/llama3:8b:q4] the tag is [8b:q4], where
    the document's rule gives [q4]. *)
Lemma ollama_tag_not_after_last_colon :
  ollama_name_tag (ollama_model_full "myorg/llama3:8b:q4") = ("myorg/llama3", "8b:q4")
  /\ spec_ollama_name_tag (ollama_model_full "myorg/llama3:8b:q4")
     = ("myorg/llama3:8b", "q4")
  /\ ollama_name_tag (ollama_model_full "myorg/llama3:8b:q4")
     <> spec_ollama_name_tag (ollama_model_full "myorg/llama3:8b:q4").
Proof. repeat split; try reflexivity. vm_compute. discriminate. Qed.

(** C5, amended: the namespace defaults to [library] when the reference has
    no slash; the tag defaults to [latest] when there is no colon; otherwise
    the name is the text before the FIRST colon and the tag everything after
    it.  [llama3] resolves to [library/llama3] with tag [latest], and
    [myorg/llama3:8b] to [myorg/llama3] with tag [8b]. *)
Theorem ollama_reference_resolution :
  (forall model, Str.contains "/" model = false ->
     ollama_model_full model = "library/" +:+ model)
  /\ (forall model, Str.contains "/" model = true ->
        ollama_model_full model = model)
  /\ (forall model_full, Str.contains ":" model_full = false ->
        ollama_name_tag model_full = (model_full, "latest"))
  /\ (forall model_name model_tag, Str.contains ":" model_name = false ->
        ollama_name_tag (model_name +:+ ":" +:+ model_tag) = (model_name, model_tag))
  /\ (forall model_full, Str.contains ":" model_full = true ->
        exists model_name model_tag,
          ollama_name_tag model_full = (model_name, model_tag)
          /\ model_full = model_name +:+ ":" +:+ model_tag
          /\ Str.contains ":" model_name = false)
  /\ ollama_name_tag (ollama_model_full "llama3") = ("library/llama3", "latest")
  /\ Path.basename "library/llama3" = "llama3"
  /\ ollama_name_tag (ollama_model_full "myorg/llama3:8b") = ("myorg/llama3", "8b").
Proof.
  repeat split; try reflexivity.
  - intros model H. unfold ollama_model_full. rewrite H. reflexivity.
  - intros model H. unfold ollama_model_full. rewrite H. reflexivity.
  - intros mf H. unfold ollama_name_tag. rewrite H. reflexivity.
  - intros n t H. unfold ollama_name_tag, Str.split1.
    change (n +:+ ":" +:+ t) with (n +:+ String ":" t).
    rewrite contains_app. simpl. rewrite orb_true_r.
    rewrite (cut_app _ _ _ H). reflexivity.
  - intros mf H. unfold ollama_name_tag, Str.split1. rewrite H.
    destruct (Str.cut ":" mf) as [[n t]|] eqn:Hc.
    + exists n, t. destruct (cut_spec _ _ _ _ Hc) as [-> Hn]. auto.
    + apply cut_none in Hc. congruence.
Qed.

(** The amended C5 at the two references of the document. *)
Lemma ollama_reference_resolution_witness :
  ollama_model_full "llama3" = "library/llama3"
  /\ ollama_name_tag "myorg/llama3:8b" = ("myorg/llama3", "8b").
Proof.
  destruct ollama_reference_resolution as (H1 & _ & _ & H4 & _).
  split.
  - apply (H1 "llama3"). reflexivity.
  - apply (H4 "myorg/llama3" "8b"). reflexivity.
Defined.

Lemma split_nonempty (c : ascii) (s : string) : Str.split c s <> [].
Proof.
  destruct s as [|a s]; simpl; [discriminate|].
  destruct (Ascii.eqb a c); [discriminate|].
  destruct (Str.split c s); discriminate.
Qed.


Lemma split_app (c : ascii) (a b : string) :
  Str.split c (a +:+ String c b) = Str.split c a ++ Str.split c b.
Proof.
  induction a as [|x a IH]; simpl.
  - rewrite Ascii.eqb_refl. reflexivity.
  - destruct (Ascii.eqb x c); [rewrite IH; reflexivity|].
    rewrite IH. destruct (Str.split c a) eqn:E; [|reflexivity].
    exfalso. exact (split_nonempty _ _ E).
Qed.







(** ** C8: identifiers of URL-derived references *)

Section UrlIdentifiers.

Variable REGISTRY_URL : string.
Variable base : URL.t -> string * string * string.

Local Abbreviation extract := (URL.extract_model_identifiers REGISTRY_URL base).





End UrlIdentifiers.




(** ** C6: OCI references *)

(** A reference with a slash and a host without a dot is rejected: the
    message names the reference and the process exits with status 1. *)
Lemma oci_undotted_host_rejected (model registry reference : string) (w : world) :
  Str.removeprefix model "oci://" = registry +:+ "/" +:+ reference ->
  Str.contains "/" registry = false ->
  Str.contains "." registry = false ->
  oci_target_decompose model w
  = (Exit 1, World (fs w) (cwd w) (stdout w)
               (stderr w ++ [oci_registry_message model]) (trace w)).
Proof.
  intros Ht Hs Hd. unfold oci_target_decompose, Str.split1. rewrite Ht.
  change (registry +:+ "/" +:+ reference) with (registry +:+ String "/" reference).
  rewrite (cut_app _ _ _ Hs), Hd. reflexivity.
Qed.

(** A reference with a dotted host is accepted, colons of the reference
    becoming directory separators. *)
Lemma oci_dotted_host_accepted (model registry reference : string) (w : world) :
  Str.removeprefix model "oci://" = registry +:+ "/" +:+ reference ->
  Str.contains "/" registry = false ->
  Str.contains "." registry = true ->
  oci_target_decompose model w
  = (Ok (registry +:+ "/" +:+ reference, registry, reference,
         Str.replace ":" "/" reference), w).
Proof.
  intros Ht Hs Hd. unfold oci_target_decompose, Str.split1. rewrite Ht.
  change (registry +:+ "/" +:+ reference) with (registry +:+ String "/" reference).
  rewrite (cut_app _ _ _ Hs), Hd. reflexivity.
Qed.

(** A reference without any slash never reaches the registry check: the
    unpacking of [target.split('/', 1)] raises. *)
Lemma oci_no_slash_raises (model : string) (w : world) :
  Str.contains "/" (Str.removeprefix model "oci://") = false ->
  oci_target_decompose model w
  = (Raise (ValueError "not enough values to unpack (expected 2, got 1)"), w).
Proof.
  intros H. unfold oci_target_decompose, Str.split1.
  apply cut_none in H. rewrite H. reflexivity.
Qed.

(** C6 at the document's own example: [oci://registry.acme.org/ns/repo:tag]
    is accepted, but [oci://repo:tag] is not rejected through the registry
    message and exit status 1 that the code prepares for it: the
    decomposition raises an uncaught [ValueError] before the check, nothing
    is printed, and the pull ends in that exception without having started
    any command. *)
Theorem oci_reference_without_slash_raises :
  (forall w, oci_target_decompose "oci://registry.acme.org/ns/repo:tag" w
             = (Ok ("registry.acme.org/ns/repo:tag", "registry.acme.org",
                    "ns/repo:tag", "ns/repo/tag"), w))
  /\ (forall w, oci_target_decompose "oci://repo:tag" w
                = (Raise (ValueError "not enough values to unpack (expected 2, got 1)"),
                   w))
  /\ Scenario.pull Scenario.P "oci://repo:tag" Scenario.w0
     = (Raise (ValueError "not enough values to unpack (expected 2, got 1)"),
        Scenario.w0)
  /\ (forall w, oci_target_decompose "oci://localhost/repo:tag" w
                = (Exit 1, World (fs w) (cwd w) (stdout w)
                             (stderr w ++ [oci_registry_message "oci://localhost/repo:tag"])
                             (trace w))).
Proof.
  split; [|split; [|split]].
  - intros w. reflexivity.
  - intros w. reflexivity.
  - vm_compute. reflexivity.
  - intros w. reflexivity.
Qed.

(** ** Reasoning about computations *)

Lemma bind_ok {A B} (m : M A) (k : A -> M B) (w w1 : world) (a : A) :
  m w = (Ok a, w1) -> bind m k w = k a w1.
Proof. intros H. unfold bind. rewrite H. reflexivity. Qed.

Lemma bind_exit {A B} (m : M A) (k : A -> M B) (w w1 : world) (c : Z) :
  m w = (Exit c, w1) -> bind m k w = (Exit c, w1).
Proof. intros H. unfold bind. rewrite H. reflexivity. Qed.

Lemma bind_raise {A B} (m : M A) (k : A -> M B) (w w1 : world) (e : exn) :
  m w = (Raise e, w1) -> bind m k w = (Raise e, w1).
Proof. intros H. unfold bind. rewrite H. reflexivity. Qed.

Lemma bind_Ok_inv {A B} (m : M A) (k : A -> M B) (w w2 : world) (b : B) :
  bind m k w = (Ok b, w2) ->
  exists a w1, m w = (Ok a, w1) /\ k a w1 = (Ok b, w2).
Proof.
  unfold bind. destruct (m w) as [[a|c|e] w1]; intros H; try discriminate.
  eauto.
Qed.

Section Respects.

Variable R : world -> world -> Prop.
Hypothesis R_refl : forall w, R w w.
Hypothesis R_trans : forall w1 w2 w3, R w1 w2 -> R w2 w3 -> R w1 w3.

Lemma respects_ret {A} (a : A) : respects R (ret a).
Proof. intros w r w' H. inversion H; subst. apply R_refl. Qed.

Lemma respects_raise {A} (e : exn) : respects R (@raise A e).
Proof. intros w r w' H. inversion H; subst. apply R_refl. Qed.

Lemma respects_exit {A} (c : Z) : respects R (@sys_exit A c).
Proof. intros w r w' H. inversion H; subst. apply R_refl. Qed.

Lemma respects_lift {A} (o : outcome A) : respects R (lift o).
Proof. intros w r w' H. inversion H; subst. apply R_refl. Qed.

Lemma respects_bind {A B} (m : M A) (k : A -> M B) :
  respects R m -> (forall a, respects R (k a)) -> respects R (bind m k).
Proof.
  intros Hm Hk w r w' H. unfold bind in H.
  destruct (m w) as [[a|c|e] w1] eqn:E.
  - eapply R_trans; [eapply Hm; eauto | eapply Hk; eauto].
  - inversion H; subst. eapply Hm; eauto.
  - inversion H; subst. eapply Hm; eauto.
Qed.

Lemma respects_try {A} (m : M A) (h : list string -> Z -> M A) :
  respects R m -> (forall cmd rc, respects R (h cmd rc)) ->
  respects R (try_except_CalledProcessError m h).
Proof.
  intros Hm Hh w r w' H. unfold try_except_CalledProcessError in H.
  destruct (m w) as [[a|c|e] w1] eqn:E;
    try (inversion H; subst; eapply Hm; eauto; fail).
  destruct e; try (inversion H; subst; eapply Hm; eauto; fail).
  eapply R_trans; [eapply Hm; eauto | eapply Hh; eauto].
Qed.

Lemma respects_when (b : bool) (m : M unit) :
  respects R m -> respects R (when b m).
Proof. intros Hm. destruct b; [exact Hm | apply respects_ret]. Qed.

Lemma respects_for_each {A} (l : list A) (body : A -> M unit) :
  (forall a, respects R (body a)) -> respects R (for_each l body).
Proof.
  intros Hb. induction l as [|a l IH]; simpl.
  - apply respects_ret.
  - apply respects_bind; auto.
Qed.

Lemma respects_pure {A} (f : world -> outcome A) :
  respects R (fun w => (f w, w)).
Proof. intros w r w' H. inversion H; subst. apply R_refl. Qed.

End Respects.

(** ** The world only grows *)

Lemma grows_refl (w : world) : grows w w.
Proof.
  repeat split; try (exists []; rewrite app_nil_r; reflexivity).
Qed.

Lemma grows_trans (w1 w2 w3 : world) : grows w1 w2 -> grows w2 w3 -> grows w1 w3.
Proof.
  intros (Hc1 & [e1 He1] & [o1 Ho1] & [r1 Hr1]) (Hc2 & [e2 He2] & [o2 Ho2] & [r2 Hr2]).
  repeat split.
  - congruence.
  - exists (e1 ++ e2). rewrite He2, He1, app_assoc. reflexivity.
  - exists (o1 ++ o2). rewrite Ho2, Ho1, app_assoc. reflexivity.
  - exists (r1 ++ r2). rewrite Hr2, Hr1, app_assoc. reflexivity.
Qed.

Lemma grows_log_fs (w : world) (e : event) (m : gmap string node) :
  grows w (log e (with_fs w m)).
Proof.
  repeat split; simpl; try (exists []; rewrite app_nil_r; reflexivity).
  exists [e]. reflexivity.
Qed.

Lemma grows_log (w : world) (e : event) : grows w (log e w).
Proof.
  repeat split; simpl; try (exists []; rewrite app_nil_r; reflexivity).
  exists [e]. reflexivity.
Qed.

Lemma write_file_grows (w w' : world) (p data : string) :
  write_file w p data = Some w' -> grows w w'.
Proof.
  unfold write_file. destruct (follow w p) as [k|]; [|discriminate].
  destruct (fs w !! k) as [[d|t|]|]; intros H; inversion H; subst;
    apply grows_log_fs.
Qed.

Lemma makedirs_from_grows (comps : list string) (pre : string) :
  respects grows (makedirs_from pre comps).
Proof.
  revert pre. induction comps as [|c rest IH]; intros pre w r w' H; simpl in H.
  - inversion H; subst. apply grows_refl.
  - set (cur := pre +:+ "/" +:+ c) in *.
    destruct (fs w !! cur) as [n|] eqn:E1; destruct (stat w cur) as [[d|t|]|] eqn:E2;
      try (eapply IH; eauto; fail);
      try (destruct rest; inversion H; subst; apply grows_refl; fail);
      try (eapply grows_trans; [apply grows_log_fs | eapply IH; eauto]; fail).
Qed.

Lemma os_makedirs_grows (p : string) : respects grows (os_makedirs p).
Proof.
  intros w r w' H. unfold os_makedirs in H.
  destruct (String.eqb p EmptyString).
  - inversion H; subst. apply grows_refl.
  - eapply makedirs_from_grows; eauto.
Qed.

Lemma print_grows (msg : string) : respects grows (print msg).
Proof.
  intros w r w' H. inversion H; subst.
  repeat split; simpl; try (exists []; rewrite app_nil_r; reflexivity).
  exists [msg]. reflexivity.
Qed.

Lemma print_error_grows (msg : string) : respects grows (print_error msg).
Proof.
  intros w r w' H. inversion H; subst.
  repeat split; simpl; try (exists []; rewrite app_nil_r; reflexivity).
  exists [msg]. reflexivity.
Qed.

Section ToolsGrow.

Variable P : platform.

Lemma tool_curl_grows (args : list string) (w w' : world) (rc : Z) (out : string) :
  tool_curl P args w = (rc, out, w') -> grows w w'.
Proof.
  unfold tool_curl.
  destruct (curl_url _) as [url|]; [|intros H; inversion H; apply grows_refl].
  destruct (curl_output _) as [o|]; [|intros H; inversion H; apply grows_refl].
  destruct (http_get P url _) as [rc' data].
  destruct (rc' =? 0); [|intros H; inversion H; apply grows_refl].
  destruct (write_file w o _) as [w1|] eqn:E; intros H; inversion H; subst.
  - eapply write_file_grows; eauto.
  - apply grows_refl.
Qed.

Lemma tool_ln_grows (target link : string) (w w' : world) (rc : Z) (out : string) :
  tool_ln P target link w = (rc, out, w') -> grows w w'.
Proof.
  unfold tool_ln. destruct (ln_status P target link =? 0);
    intros H; inversion H; subst; [apply grows_log_fs | apply grows_refl].
Qed.

Lemma write_files_grows (dir : string) (files : list (string * string))
    (w w' : world) :
  write_files dir files w = Some w' -> grows w w'.
Proof.
  revert w. induction files as [|[name data] rest IH]; intros w H; simpl in H.
  - inversion H; subst. apply grows_refl.
  - destruct (write_file w _ data) as [w1|] eqn:E; [|discriminate].
    eapply grows_trans; [eapply write_file_grows; eauto | eapply IH; eauto].
Qed.

Lemma tool_omlmd_pull_grows (target outdir : string) (w w' : world)
    (rc : Z) (out : string) :
  tool_omlmd_pull P target outdir w = (rc, out, w') -> grows w w'.
Proof.
  unfold tool_omlmd_pull. destruct (omlmd_pull P target) as [rc' files].
  destruct (rc' =? 0); [|intros H; inversion H; apply grows_refl].
  destruct (os_makedirs outdir w) as [r w1] eqn:E.
  pose proof (os_makedirs_grows _ _ _ _ E) as G1.
  destruct r; try (intros H; inversion H; subst; exact G1).
  destruct (write_files outdir files w1) as [w2|] eqn:E2;
    intros H; inversion H; subst; [|exact G1].
  eapply grows_trans; [exact G1 | eapply write_files_grows; eauto].
Qed.

Lemma tool_hf_download_grows (repo filename local_dir : string) (w w' : world)
    (rc : Z) (out : string) :
  tool_hf_download P repo filename local_dir w = (rc, out, w') -> grows w w'.
Proof.
  unfold tool_hf_download. destruct (hf_download P repo filename) as [rc' data].
  destruct (rc' =? 0); [|intros H; inversion H; apply grows_refl].
  destruct (os_makedirs _ w) as [r w1] eqn:E.
  pose proof (os_makedirs_grows _ _ _ _ E) as G1.
  destruct r; try (intros H; inversion H; subst; exact G1).
  destruct (write_file w1 _ data) as [w2|] eqn:E2;
    intros H; inversion H; subst; [|exact G1].
  eapply grows_trans; [exact G1 | eapply write_file_grows; eauto].
Qed.

Lemma run_tool_grows (args : list string) (w w' : world) (rc : Z) (out : string) :
  run_tool P args w = Some (rc, out, w') -> grows w w'.
Proof.
  unfold run_tool. destruct args as [|prog rest]; [discriminate|].
  destruct (String.eqb prog "curl").
  { intros H; inversion H. eapply tool_curl_grows; eauto. }
  destruct (String.eqb prog "ln").
  { destruct rest as [|opt [|target [|link [|]]]];
      try (intros H; inversion H; subst; apply grows_refl).
    destruct (String.eqb opt "-sf"); intros H; inversion H; subst;
      [eapply tool_ln_grows; eauto | apply grows_refl]. }
  destruct (String.eqb prog "omlmd").
  { destruct rest as [|cmd [|target [|opt [|outdir [|]]]]];
      try (intros H; inversion H; subst; apply grows_refl).
    destruct (String.eqb cmd "pull" && String.eqb opt "--output");
      intros H; inversion H; subst;
      [eapply tool_omlmd_pull_grows; eauto | apply grows_refl]. }
  destruct (String.eqb prog "huggingface-cli"); [|discriminate].
  destruct rest as [|cmd [|repo [|filename [|o1 [|c [|o2 [|local_dir [|]]]]]]]];
    try (intros H; inversion H; subst; apply grows_refl).
  destruct (String.eqb cmd "download" && String.eqb o1 "--cache-dir"
            && String.eqb o2 "--local-dir");
    intros H; inversion H; subst;
    [eapply tool_hf_download_grows; eauto | apply grows_refl].
Qed.

(** A command that is started is the next event of the trace. *)
Lemma subprocess_run_trace (args : list string) (w w' : world) (r : outcome string) :
  subprocess_run P args w = (r, w') ->
  cwd w' = cwd w /\ exists evs, trace w' = trace w ++ Run args :: evs.
Proof.
  unfold subprocess_run.
  destruct (run_tool P args (log (Run args) w)) as [[[rc out] w1]|] eqn:E.
  - apply run_tool_grows in E. destruct E as (Hc & [evs He] & _).
    intros H. assert (w' = w1) by (destruct (rc =? 0); inversion H; auto).
    subst w'. split; [exact Hc|]. exists evs. rewrite He. simpl.
    rewrite <- app_assoc. reflexivity.
  - intros H. inversion H; subst. split; [reflexivity|]. exists []. reflexivity.
Qed.

Lemma subprocess_run_grows (args : list string) : respects grows (subprocess_run P args).
Proof.
  intros w r w' H. unfold subprocess_run in H.
  destruct (run_tool P args (log (Run args) w)) as [[[rc out] w1]|] eqn:E.
  - apply run_tool_grows in E.
    assert (w' = w1) by (destruct (rc =? 0); inversion H; auto). subst w'.
    eapply grows_trans; [apply grows_log | exact E].
  - inversion H; subst. apply grows_log.
Qed.

End ToolsGrow.

(** ** C2: the checksum gate of the download engine *)

Lemma startswith_inv (s p : string) :
  Str.startswith s p = true -> s = p +:+ Str.drop (String.length p) s.
Proof.
  revert s. induction p as [|b p IH]; intros s H; [reflexivity|].
  destruct s as [|a s]; [discriminate|]. simpl in H.
  apply andb_true_iff in H. destruct H as [Hab Hs].
  apply Ascii.eqb_eq in Hab. subst.
  change (String b s = String b (p +:+ Str.drop (String.length p) s)).
  f_equal. apply IH. exact Hs.
Qed.

Lemma split_head (c : ascii) (s : string) :
  exists t, Str.split c s
            = match Str.cut c s with Some (l, _) => l | None => s end :: t.
Proof.
  induction s as [|a s [t IH]]; simpl; [eauto|].
  destruct (Ascii.eqb a c); [eauto|].
  rewrite IH. destruct (Str.cut c s) as [[l r]|]; eauto.
Qed.

(** The field [fn_base.split(":")[1]] of the code is the embedded digest. *)
Lemma split_digest_field (filename : string) :
  Str.startswith (Path.basename filename) "sha256:" = true ->
  Str.split ":" (Path.basename filename) !! 1%nat = embedded_digest filename.
Proof.
  intros H. unfold embedded_digest. rewrite H.
  rewrite (startswith_inv _ _ H) at 1.
  change (String.length "sha256:") with 7%nat.
  generalize (Str.drop 7 (Path.basename filename)). intros rest.
  change ("sha256:" +:+ rest) with ("sha256" +:+ String ":" rest).
  rewrite split_app.
  destruct (split_head ":" rest) as [t ->].
  simpl. destruct (Str.cut ":" rest) as [[l r]|]; reflexivity.
Qed.

Section Gate.

Variable P : platform.

(** [verify_checksum] by cases on what the path leads to and on its
    name. *)
Lemma verify_checksum_cases (filename : string) (w : world) :
  verify_checksum P filename w =
    match stat w filename with
    | None => (Ok false, w)
    | Some n =>
        match embedded_digest filename with
        | None =>
            (Raise (ValueError ("Filename does not start with 'sha256:': "
                                +:+ Path.basename filename)), w)
        | Some digest =>
            if (String.length digest =? 64)%nat then
              match n with
              | File data => (Ok (String.eqb (sha256_hexdigest P data) digest), w)
              | Dir => (Raise (IsADirectoryError filename), w)
              | Link _ => (Raise (FileNotFoundError filename), w)
              end
            else (Raise (ValueError "Invalid checksum length in filename"), w)
        end
    end.
Proof.
  unfold verify_checksum, bind, os_path_exists, path_exists.
  destruct (stat w filename) as [n|] eqn:Hs; [|reflexivity].
  cbn [negb].
  destruct (Str.startswith (Path.basename filename) "sha256:") eqn:Hp.
  - rewrite (split_digest_field _ Hp). cbn [negb].
    destruct (embedded_digest filename) as [d|] eqn:Hd.
    + destruct (String.length d =? 64)%nat; cbn [negb]; [|reflexivity].
      unfold read_file, ret, raise. rewrite Hs. destruct n; reflexivity.
    + unfold embedded_digest in Hd. rewrite Hp in Hd.
      destruct (Str.cut _ _) as [[? ?]|]; discriminate.
  - cbn [negb]. unfold embedded_digest. rewrite Hp. reflexivity.
Qed.


(** What the command branch of [run_curl_cmd] does: the command is
    started; a non-zero status ends the process with that status, with the
    message for status 22. *)
Lemma fetch_cases (args : list string) (filename : string) (w : world) :
  match subprocess_run P args w with
  | (Ok _, w1) => fetch P args filename w = (Ok tt, w1)
  | (Raise (CalledProcessError _ rc), w1) =>
      fetch P args filename w
      = (Exit rc,
         if rc =? 22
         then World (fs w1) (cwd w1) (stdout w1)
                (stderr w1 ++ [filename +:+ " not found"]) (trace w1)
         else w1)
  | (Raise e, w1) => fetch P args filename w = (Raise e, w1)
  | (Exit c, w1) => fetch P args filename w = (Exit c, w1)
  end.
Proof.
  unfold fetch, try_except_CalledProcessError, run_cmd, x, when, bind, ret.
  destruct (subprocess_run P args w) as [[out|c|e] w1]; try reflexivity.
  destruct e; try reflexivity.
  destruct (returncode =? 22); reflexivity.
Qed.


Lemma run_curl_cmd_cases (args : list string) (filename : string) (w : world) :
  run_curl_cmd P args filename w =
    match verify_checksum P filename w with
    | (Ok true, _) => (Ok tt, w)
    | (Ok false, _) => fetch P args filename w
    | (Exit c, _) => (Exit c, w)
    | (Raise e, _) => (Raise e, w)
    end.
Proof.
  unfold run_curl_cmd, bind. rewrite verify_checksum_cases.
  destruct (stat w filename) as [n|]; [|reflexivity].
  destruct (embedded_digest filename) as [d|]; [|reflexivity].
  destruct (String.length d =? 64)%nat; [|reflexivity].
  destruct n; try reflexivity.
  destruct (String.eqb _ d); reflexivity.
Qed.


End Gate.



(** ** The Ollama path of [pull_cli] *)

Lemma not_dash (u p : string) :
  Str.startswith u "-" = false -> String.eqb u (String "-" p) = false.
Proof.
  intros H. destruct (String.eqb_spec u (String "-" p)) as [->|]; [|reflexivity].
  simpl in H. destruct p; discriminate.
Qed.

Section OllamaPull.

Variable P : platform.

Lemma pull_cli_glob (store ref first port : string) (rest others : list string)
    (w : world) :
  glob_models w store ref = first :: others ->
  pull_cli P store (ref :: rest) port w = (Ok first, w).
Proof.
  intros H. unfold pull_cli, bind, glob_glob_models. rewrite H. reflexivity.
Qed.

(** With no match of the literal name and no other scheme, [pull_cli]
    returns the published path if it exists and runs [init_pull]
    otherwise. *)
Lemma pull_cli_ollama (store ref port : string) (rest : list string) (w : world) :
  glob_models w store ref = [] ->
  Str.startswith ref "huggingface://" = false ->
  Str.startswith ref "oci://" = false ->
  pull_cli P store (ref :: rest) port w =
    if path_exists w (ollama_symlink_path store ref)
    then (Ok (ollama_symlink_path store ref), w)
    else ollama_init_pull P store ref w.
Proof.
  intros Hg Hh Ho.
  unfold pull_cli, bind at 1, glob_glob_models. rewrite Hg, Hh, Ho.
  unfold ollama_init_pull, ollama_symlink_path, ollama_manifests,
    ollama_registry_head, ollama_name, ollama_tag, ollama_model,
    ollama_models, ollama_repos, ollama_accept.
  destruct (ollama_name_tag _) as [model_name model_tag]. cbn [fst snd].
  unfold bind at 1, os_path_exists.
  destruct (path_exists w _); reflexivity.
Qed.



End OllamaPull.

(** ** C4: failures of the fetch tool *)

Section FetchFailure.

Variable P : platform.



End FetchFailure.



(** ** Symbolic links are kept *)

Lemma keeps_links_refl (w : world) : keeps_links w w.
Proof. split; [reflexivity | tauto]. Qed.

Lemma keeps_links_trans (w1 w2 w3 : world) :
  keeps_links w1 w2 -> keeps_links w2 w3 -> keeps_links w1 w3.
Proof.
  intros [Hc1 H1] [Hc2 H2]. split; [congruence|].
  intros k t. rewrite H2. apply H1.
Qed.

(** Following links ends at an entry that is not a link. *)
Lemma resolve_not_link (fuel : nat) (w : world) (k k' t : string) :
  resolve fuel w k = Some k' -> fs w !! k' <> Some (Link t).
Proof.
  revert k. induction fuel as [|n IH]; intros k H; simpl in H.
  - destruct (fs w !! k) as [[d|t'|]|] eqn:E; inversion H; subst; congruence.
  - destruct (fs w !! k) as [[d|t'|]|] eqn:E;
      try (inversion H; subst; congruence).
    eapply IH; eauto.
Qed.

Lemma follow_not_link (w : world) (p k t : string) :
  follow w p = Some k -> fs w !! k <> Some (Link t).
Proof.
  unfold follow. destruct (String.eqb p EmptyString); [discriminate|].
  apply resolve_not_link.
Qed.

(** Replacing or adding an entry that is not a link, at a place that holds
    no link, keeps the links. *)
Lemma keeps_links_insert (w : world) (e : event) (k : string) (n : node) :
  (forall t, fs w !! k <> Some (Link t)) ->
  (forall t, n <> Link t) ->
  keeps_links w (log e (with_fs w (<[k := n]> (fs w)))).
Proof.
  intros Hk Hn. split; [reflexivity|]. intros k' t. simpl.
  destruct (decide (k = k')) as [->|Hne].
  - rewrite lookup_insert_eq. split; intros H.
    + inversion H. exfalso. eapply Hn; eauto.
    + exfalso. eapply Hk; eauto.
  - rewrite lookup_insert_ne by exact Hne. tauto.
Qed.

Lemma write_file_keeps_links (w w' : world) (p data : string) :
  write_file w p data = Some w' -> keeps_links w w'.
Proof.
  unfold write_file. destruct (follow w p) as [k|] eqn:Ef; [|discriminate].
  pose proof (fun t => follow_not_link w p k t Ef) as Hk.
  destruct (fs w !! k) as [[d|t|]|] eqn:E; intros H; inversion H; subst;
    first [ exfalso; eapply Hk; reflexivity
          | apply keeps_links_insert;
            [intros t0; rewrite E; discriminate | intros t0; discriminate] ].
Qed.

Lemma makedirs_from_keeps_links (comps : list string) (pre : string) :
  respects keeps_links (makedirs_from pre comps).
Proof.
  revert pre. induction comps as [|c rest IH]; intros pre w r w' H; simpl in H.
  - inversion H; subst. apply keeps_links_refl.
  - set (cur := pre +:+ "/" +:+ c) in *.
    destruct (fs w !! cur) as [n|] eqn:E1; destruct (stat w cur) as [[d|t|]|] eqn:E2;
      try (eapply IH; eauto; fail);
      try (destruct rest; inversion H; subst; apply keeps_links_refl; fail);
      try (eapply keeps_links_trans; [|eapply IH; eauto];
           apply keeps_links_insert; [intros t0; congruence | intros t0; discriminate]).
Qed.

Lemma os_makedirs_keeps_links (p : string) : respects keeps_links (os_makedirs p).
Proof.
  intros w r w' H. unfold os_makedirs in H.
  destruct (String.eqb p EmptyString).
  - inversion H; subst. apply keeps_links_refl.
  - eapply makedirs_from_keeps_links; eauto.
Qed.

Lemma print_keeps_links (msg : string) : respects keeps_links (print msg).
Proof. intros w r w' H. inversion H; subst. split; [reflexivity | simpl; tauto]. Qed.

Lemma print_error_keeps_links (msg : string) : respects keeps_links (print_error msg).
Proof. intros w r w' H. inversion H; subst. split; [reflexivity | simpl; tauto]. Qed.

Lemma log_keeps_links (e : event) (w : world) : keeps_links w (log e w).
Proof. split; [reflexivity | simpl; tauto]. Qed.

Section ToolsKeepLinks.

Variable P : platform.

Lemma tool_curl_keeps_links (args : list string) (w w' : world) (rc : Z)
    (out : string) :
  tool_curl P args w = (rc, out, w') -> keeps_links w w'.
Proof.
  unfold tool_curl.
  destruct (curl_url _) as [url|]; [|intros H; inversion H; apply keeps_links_refl].
  destruct (curl_output _) as [o|]; [|intros H; inversion H; apply keeps_links_refl].
  destruct (http_get P url _) as [rc' data].
  destruct (rc' =? 0); [|intros H; inversion H; apply keeps_links_refl].
  destruct (write_file w o _) as [w1|] eqn:E; intros H; inversion H; subst.
  - eapply write_file_keeps_links; eauto.
  - apply keeps_links_refl.
Qed.

Lemma write_files_keeps_links (dir : string) (files : list (string * string))
    (w w' : world) :
  write_files dir files w = Some w' -> keeps_links w w'.
Proof.
  revert w. induction files as [|[name data] rest IH]; intros w H; simpl in H.
  - inversion H; subst. apply keeps_links_refl.
  - destruct (write_file w _ data) as [w1|] eqn:E; [|discriminate].
    eapply keeps_links_trans; [eapply write_file_keeps_links; eauto | eapply IH; eauto].
Qed.

Lemma tool_omlmd_pull_keeps_links (target outdir : string) (w w' : world)
    (rc : Z) (out : string) :
  tool_omlmd_pull P target outdir w = (rc, out, w') -> keeps_links w w'.
Proof.
  unfold tool_omlmd_pull. destruct (omlmd_pull P target) as [rc' files].
  destruct (rc' =? 0); [|intros H; inversion H; apply keeps_links_refl].
  destruct (os_makedirs outdir w) as [r w1] eqn:E.
  pose proof (os_makedirs_keeps_links _ _ _ _ E) as G1.
  destruct r; try (intros H; inversion H; subst; exact G1).
  destruct (write_files outdir files w1) as [w2|] eqn:E2;
    intros H; inversion H; subst; [|exact G1].
  eapply keeps_links_trans; [exact G1 | eapply write_files_keeps_links; eauto].
Qed.

(** A curl command keeps the links, whatever it fetches. *)
Lemma curl_keeps_links (args : list string) :
  respects keeps_links (subprocess_run P ("curl" :: args)).
Proof.
  intros w r w' H. unfold subprocess_run, run_tool in H.
  cbn [String.eqb Ascii.eqb Bool.eqb] in H.
  destruct (tool_curl P args (log (Run ("curl" :: args)) w))
    as [[rc out] w1] eqn:E.
  apply tool_curl_keeps_links in E.
  assert (w' = w1) by (destruct (rc =? 0); inversion H; auto). subst w'.
  eapply keeps_links_trans; [apply log_keeps_links | exact E].
Qed.

Lemma omlmd_pull_keeps_links (target outdir : string) :
  respects keeps_links
    (subprocess_run P ["omlmd"; "pull"; target; "--output"; outdir]).
Proof.
  intros w r w' H. unfold subprocess_run, run_tool in H.
  cbn [String.eqb Ascii.eqb Bool.eqb andb] in H.
  destruct (tool_omlmd_pull P target outdir _) as [[rc out] w1] eqn:E.
  apply tool_omlmd_pull_keeps_links in E.
  assert (w' = w1) by (destruct (rc =? 0); inversion H; auto). subst w'.
  eapply keeps_links_trans; [apply log_keeps_links | exact E].
Qed.

End ToolsKeepLinks.

(** Stepping through a computation, for a relation with the two closure
    lemmas at hand. *)
Ltac respects_by refl trans leaf :=
  repeat
    first
      [ match goal with |- forall _, _ => intro end
      | leaf
      | apply (respects_ret _ refl)
      | apply (respects_raise _ refl)
      | apply (respects_exit _ refl)
      | apply (respects_lift _ refl)
      | apply (respects_pure _ refl)
      | apply (respects_bind _ trans)
      | apply (respects_try _ trans)
      | apply (respects_when _ refl)
      | apply (respects_for_each _ refl trans)
      | match goal with |- respects _ (if ?b then _ else _) => destruct b end
      | match goal with |- respects _ (match ?o with Some _ => _ | None => _ end) =>
          destruct o end ].

Section OllamaKeepsLinks.

Variable P : platform.

Lemma verify_checksum_world (filename : string) (w w' : world) (r : outcome bool) :
  verify_checksum P filename w = (r, w') -> w' = w.
Proof.
  rewrite verify_checksum_cases.
  destruct (stat w filename) as [n|]; [|intros H; inversion H; auto].
  destruct (embedded_digest filename) as [d|]; [|intros H; inversion H; auto].
  destruct (String.length d =? 64)%nat; [|intros H; inversion H; auto].
  destruct n; intros H; inversion H; auto.
Qed.

Lemma verify_checksum_respects (R : world -> world -> Prop) (filename : string) :
  (forall w, R w w) -> respects R (verify_checksum P filename).
Proof.
  intros Hr w r w' H. apply verify_checksum_world in H. subst. apply Hr.
Qed.

Lemma run_cmd_curl_keeps_links (args : list string) :
  respects keeps_links (run_cmd P ("curl" :: args)).
Proof.
  unfold run_cmd, x.
  respects_by keeps_links_refl keeps_links_trans ltac:(apply curl_keeps_links).
Qed.

Lemma run_curl_cmd_keeps_links (args : list string) (filename : string) :
  respects keeps_links (run_curl_cmd P ("curl" :: args) filename).
Proof.
  unfold run_curl_cmd.
  apply (respects_bind _ keeps_links_trans);
    [apply verify_checksum_respects, keeps_links_refl|].
  respects_by keeps_links_refl keeps_links_trans
    ltac:(first [apply run_cmd_curl_keeps_links | apply print_error_keeps_links]).
Qed.

Lemma pull_ollama_manifest_keeps_links
    (repos_ollama manifests accept registry_head model_tag : string) :
  respects keeps_links
    (pull_ollama_manifest P repos_ollama manifests accept registry_head model_tag).
Proof.
  unfold pull_ollama_manifest.
  respects_by keeps_links_refl keeps_links_trans
    ltac:(first [apply os_makedirs_keeps_links | apply run_cmd_curl_keeps_links]).
Qed.

Lemma pull_ollama_config_blob_keeps_links
    (repos_ollama accept registry_head : string) (manifest_data : json) :
  respects keeps_links
    (pull_ollama_config_blob P repos_ollama accept registry_head manifest_data).
Proof.
  unfold pull_ollama_config_blob.
  respects_by keeps_links_refl keeps_links_trans
    ltac:(apply run_curl_cmd_keeps_links).
Qed.

End OllamaKeepsLinks.

(** ** C10: a manifest without a model layer *)

Section OllamaGrows.

Variable P : platform.

Lemma run_cmd_grows (args : list string) : respects grows (run_cmd P args).
Proof.
  unfold run_cmd, x.
  respects_by grows_refl grows_trans ltac:(apply subprocess_run_grows).
Qed.

Lemma run_curl_cmd_grows (args : list string) (filename : string) :
  respects grows (run_curl_cmd P args filename).
Proof.
  unfold run_curl_cmd.
  apply (respects_bind _ grows_trans);
    [apply verify_checksum_respects, grows_refl|].
  respects_by grows_refl grows_trans
    ltac:(first [apply run_cmd_grows | apply print_error_grows]).
Qed.

Lemma pull_ollama_config_blob_grows
    (repos_ollama accept registry_head : string) (manifest_data : json) :
  respects grows
    (pull_ollama_config_blob P repos_ollama accept registry_head manifest_data).
Proof.
  unfold pull_ollama_config_blob.
  respects_by grows_refl grows_trans ltac:(apply run_curl_cmd_grows).
Qed.

End OllamaGrows.

Section NoModelLayer.

Variable P : platform.

Lemma json_load_world (manifests : string) (w w' : world) (r : outcome json) :
  json_load P manifests w = (r, w') -> w' = w.
Proof.
  unfold json_load, bind, read_file.
  destruct (stat w manifests) as [[d|t|]|];
    try (intros H; inversion H; reflexivity).
  destruct (json_loads P d); intros H; inversion H; reflexivity.
Qed.

(** The loop of [init_pull] over layers that are not model layers does
    nothing. *)
Lemma for_each_other_layers (layers : list json) (body : json -> M unit) (w : world) :
  forallb other_layer layers = true ->
  for_each layers (fun layer =>
    layer_digest <- lift (getitem layer "digest") ;;
    media_type <- lift (getitem layer "mediaType") ;;
    if negb (json_eq_str media_type model_media_type) then ret tt
    else body layer_digest) w
  = (Ok tt, w).
Proof.
  induction layers as [|l layers IH]; intros H; [reflexivity|].
  simpl in H. apply andb_true_iff in H. destruct H as [Hl Hrest].
  cbn [for_each]. unfold bind at 1. unfold bind at 1, lift at 1.
  unfold other_layer in Hl.
  destruct (getitem l "digest") as [d| |]; try discriminate.
  unfold bind at 1, lift at 1.
  destruct (getitem l "mediaType") as [m| |]; try discriminate.
  rewrite Hl. unfold ret at 1. apply IH. exact Hrest.
Qed.

Lemma pull_ollama_manifest_runs (store ref : string) (w w1 : world) :
  pull_ollama_manifest P (ollama_repos store) (ollama_manifests store ref)
    ollama_accept (ollama_registry_head ref) (ollama_tag ref) w = (Ok tt, w1) ->
  In (Run (ollama_manifest_cmd store ref)) (trace w1).
Proof.
  unfold pull_ollama_manifest. intros H.
  apply bind_Ok_inv in H. destruct H as ([] & wa & _ & H).
  apply bind_Ok_inv in H. destruct H as ([] & wb & _ & H).
  apply bind_Ok_inv in H. destruct H as (out & wc & H & Hret).
  inversion Hret; subst wc.
  unfold run_cmd, x, when in H.
  apply bind_Ok_inv in H. destruct H as ([] & wd & Hd & H).
  inversion Hd; subst wd.
  apply subprocess_run_trace in H. destruct H as [_ [evs He]].
  change (["curl"; "-f"; "-s"; "--header"; ollama_accept; "-o";
           ollama_manifests store ref;
           ollama_registry_head ref +:+ "/manifests/" +:+ ollama_tag ref])
    with (ollama_manifest_cmd store ref) in He.
  rewrite He. apply in_or_app. right. left. reflexivity.
Qed.

Lemma init_pull_no_model_layer (store ref : string) (w w1 w2 : world)
    (manifest_data : json) (layers : list json) :
  pull_ollama_manifest P (ollama_repos store) (ollama_manifests store ref)
    ollama_accept (ollama_registry_head ref) (ollama_tag ref) w = (Ok tt, w1) ->
  json_load P (ollama_manifests store ref) w1 = (Ok manifest_data, w1) ->
  pull_ollama_config_blob P (ollama_repos store) ollama_accept
    (ollama_registry_head ref) manifest_data w1 = (Ok tt, w2) ->
  getitem manifest_data "layers" = Ok (JArr layers) ->
  forallb other_layer layers = true ->
  ollama_init_pull P store ref w = (Ok (ollama_symlink_path store ref), w2).
Proof.
  intros H1 H2 H3 H4 H5. unfold ollama_init_pull, init_pull.
  unfold bind at 1. unfold try_except_CalledProcessError.
  unfold bind at 1. rewrite H1, H2.
  unfold bind at 1. rewrite H3.
  unfold bind at 1, lift at 1. rewrite H4.
  unfold bind at 1, lift at 1. cbn [iter].
  unfold bind at 1. rewrite (for_each_other_layers _ _ _ H5). reflexivity.
Qed.

End NoModelLayer.

(** C10: when the manifest and the config blob of an Ollama reference are
    fetched and no layer of the manifest has the model media type, the pull
    returns the computed symlink path without error although it has made no
    link: every symbolic link of the store is as it was, and the manifest
    request is in the trace of the run. *)
Theorem pull_without_model_layer (P : platform) (store ref port : string)
    (w w1 w2 : world) (manifest_data : json) (layers : list json) :
  glob_models w store ref = [] ->
  Str.startswith ref "huggingface://" = false ->
  Str.startswith ref "oci://" = false ->
  path_exists w (ollama_symlink_path store ref) = false ->
  pull_ollama_manifest P (ollama_repos store) (ollama_manifests store ref)
    ollama_accept (ollama_registry_head ref) (ollama_tag ref) w = (Ok tt, w1) ->
  json_load P (ollama_manifests store ref) w1 = (Ok manifest_data, w1) ->
  pull_ollama_config_blob P (ollama_repos store) ollama_accept
    (ollama_registry_head ref) manifest_data w1 = (Ok tt, w2) ->
  getitem manifest_data "layers" = Ok (JArr layers) ->
  forallb other_layer layers = true ->
  pull_cli P store [ref] port w = (Ok (ollama_symlink_path store ref), w2)
  /\ keeps_links w w2
  /\ In (Run (ollama_manifest_cmd store ref)) (trace w2).
Proof.
  intros Hg Hh Ho He H1 H2 H3 H4 H5.
  assert (K1 : keeps_links w w1)
    by (eapply pull_ollama_manifest_keeps_links; eauto).
  assert (K2 : keeps_links w1 w2)
    by (eapply pull_ollama_config_blob_keeps_links; eauto).
  split; [|split].
  - rewrite (pull_cli_ollama P _ _ _ _ _ Hg Hh Ho), He.
    eapply init_pull_no_model_layer; eauto.
  - eapply keeps_links_trans; eauto.
  - apply pull_ollama_manifest_runs in H1.
    apply pull_ollama_config_blob_grows in H3.
    destruct H3 as (_ & [evs ->] & _). apply in_or_app. left. exact H1.
Qed.

(** C10 on the registry of the scenario: [notes] has a license layer only;
    the pull returns the path of a link that does not exist. *)
Lemma pull_without_model_layer_witness :
  Scenario.pull Scenario.P "notes" Scenario.w0
  = (Ok "/var/lib/ramalama/models/ollama/notes:latest", Scenario.w_notes)
  /\ path_exists Scenario.w_notes "/var/lib/ramalama/models/ollama/notes:latest" = false
  /\ path_lexists Scenario.w_notes "/var/lib/ramalama/models/ollama/notes:latest" = false.
Proof.
  split; [|split; vm_compute; reflexivity].
  apply (pull_without_model_layer Scenario.P Scenario.store "notes" "8080"
           Scenario.w0 Scenario.w_notes_manifest Scenario.w_notes
           Scenario.manifest_without_model
           [Scenario.layer Scenario.license_digest
              "application/vnd.ollama.image.license"]);
    vm_compute; reflexivity.
Defined.

(** ** C7: the artifact of an OCI pull *)

Lemma append_slash_nonempty (a b : string) :
  String.eqb (a +:+ "/" +:+ b) EmptyString = false.
Proof. destruct a; reflexivity. Qed.

Section Publisher.

Variable P : platform.

Lemma symlink_is_correct_cases (symlink_path rel : string) (w : world) :
  String.eqb symlink_path EmptyString = false ->
  symlink_is_correct symlink_path rel w =
    if path_exists w symlink_path then
      match fs w !! key w symlink_path with
      | Some (Link t) => (Ok (String.eqb t rel), w)
      | Some _ => (Raise (OSError "Invalid argument"), w)
      | None => (Raise (FileNotFoundError symlink_path), w)
      end
    else (Ok false, w).
Proof.
  intros Hne. unfold symlink_is_correct, os_path_exists, os_readlink, bind, ret.
  destruct (path_exists w symlink_path); [|reflexivity].
  rewrite Hne. destruct (fs w !! key w symlink_path) as [[d|t|]|]; reflexivity.
Qed.

(** A successful [ln -sf] puts the link at the path, unless the path leads
    to a directory. *)
Lemma ln_sf_ok (rel symlink_path : string) (w : world) :
  ln_status P rel symlink_path = 0 ->
  path_isdir w symlink_path = false ->
  ln_sf P rel symlink_path w =
    (Ok tt,
     log (Symlink (key w symlink_path) rel)
       (with_fs (log (Run ["ln"; "-sf"; rel; symlink_path]) w)
          (<[key w symlink_path := Link rel]> (fs w)))).
Proof.
  intros Hln Hdir.
  unfold ln_sf, try_except_CalledProcessError, run_cmd, x, when, bind, ret,
    subprocess_run, run_tool.
  cbn [String.eqb Ascii.eqb Bool.eqb]. unfold tool_ln. rewrite Hln.
  cbn [Z.eqb].
  change (path_isdir (log (Run ["ln"; "-sf"; rel; symlink_path]) w) symlink_path)
    with (path_isdir w symlink_path).
  rewrite Hdir. reflexivity.
Qed.

(** A failing [ln -sf] ends the process with the status of [ln]. *)
Lemma ln_sf_fails (rel symlink_path : string) (w : world) :
  ln_status P rel symlink_path <> 0 ->
  fst (ln_sf P rel symlink_path w) = Exit (ln_status P rel symlink_path).
Proof.
  intros Hln. apply Z.eqb_neq in Hln.
  unfold ln_sf, try_except_CalledProcessError, run_cmd, x, when, bind, ret,
    subprocess_run, run_tool.
  cbn [String.eqb Ascii.eqb Bool.eqb]. unfold tool_ln. rewrite Hln, Hln.
  reflexivity.
Qed.

(** The publishing step shared by the OCI and Hugging Face adapters: a
    correct link is left alone, otherwise [ln -sf] writes it.  Either way
    the path holds a link to the computed target afterwards. *)
Lemma publish_link (symlink_path rel : string) (w : world) :
  String.eqb symlink_path EmptyString = false ->
  free_or_link w symlink_path = true ->
  path_isdir w symlink_path = false ->
  ln_status P rel symlink_path = 0 ->
  exists w',
    (correct <- symlink_is_correct symlink_path rel ;;
     if correct then ret symlink_path
     else ln_sf P rel symlink_path ;;; ret symlink_path) w
    = (Ok symlink_path, w')
    /\ fs w' !! key w' symlink_path = Some (Link rel)
    /\ keeps_files w w'.
Proof.
  intros Hne Hfree Hdir Hln.
  unfold bind at 1. rewrite (symlink_is_correct_cases _ _ _ Hne).
  unfold free_or_link in Hfree.
  assert (Hpub : exists w',
             (ln_sf P rel symlink_path ;;; ret symlink_path) w
             = (Ok symlink_path, w')
             /\ fs w' !! key w' symlink_path = Some (Link rel)
             /\ keeps_files w w').
  { unfold bind. rewrite (ln_sf_ok _ _ _ Hln Hdir). eexists.
    split; [reflexivity|]. split.
    - unfold key. simpl. apply lookup_insert_eq.
    - split; [reflexivity|]. intros k d Hk. simpl.
      destruct (decide (key w symlink_path = k)) as [<-|Hn].
      + rewrite Hk in Hfree. discriminate.
      + rewrite lookup_insert_ne by exact Hn. exact Hk. }
  destruct (path_exists w symlink_path) eqn:Hex; [|exact Hpub].
  destruct (fs w !! key w symlink_path) as [[d|t|]|] eqn:Hk; try discriminate.
  - destruct (String.eqb t rel) eqn:Ht; [|exact Hpub].
    apply String.eqb_eq in Ht. subst t. exists w.
    split; [reflexivity|]. split; [exact Hk|].
    split; [reflexivity|]. auto.
  - unfold path_exists, stat, follow in Hex. rewrite Hne in Hex.
    cbn [resolve] in Hex. rewrite Hk in Hex. rewrite Hk in Hex.
    discriminate.
Qed.

End Publisher.

(** ** The artifact of an OCI pull *)

Section OciPull.

Variable P : platform.

(** [pull_oci] after the reference is decomposed, the artifact pulled and
    the output directory listed. *)
Lemma pull_oci_cases (store model registry reference out : string)
    (files : list string) (w w1 : world) :
  Str.removeprefix model "oci://" = registry +:+ "/" +:+ reference ->
  Str.contains "/" registry = false ->
  Str.contains "." registry = true ->
  run_cmd P
    (oci_pull_cmd store (registry +:+ "/" +:+ reference) registry
       (Str.replace ":" "/" reference))
    (add_stdout (oci_downloading (registry +:+ "/" +:+ reference)) w)
  = (Ok out, w1) ->
  os_listdir (oci_outdir store registry (Str.replace ":" "/" reference)) w1
  = (Ok files, w1) ->
  pull_oci P model store w =
    match ggufs_of files with
    | [gguf] =>
        (os_makedirs (oci_directory store registry (Str.replace ":" "/" reference)) ;;;
         relative_target_path <-
           os_path_relpath
             (oci_outdir store registry (Str.replace ":" "/" reference)
              +:+ "/" +:+ gguf)
             (Path.dirname
                (oci_symlink_path store registry (Str.replace ":" "/" reference) gguf)) ;;
         correct <-
           symlink_is_correct
             (oci_symlink_path store registry (Str.replace ":" "/" reference) gguf)
             relative_target_path ;;
         if correct
         then ret (oci_symlink_path store registry (Str.replace ":" "/" reference) gguf)
         else
           ln_sf P relative_target_path
             (oci_symlink_path store registry (Str.replace ":" "/" reference) gguf) ;;;
           ret (oci_symlink_path store registry (Str.replace ":" "/" reference) gguf)) w1
    | _ =>
        (Exit (-1),
         add_stdout
           (oci_unidentified (oci_outdir store registry (Str.replace ":" "/" reference)))
           w1)
    end.
Proof.
  intros Ht Hs Hd Hrun Hls. unfold pull_oci.
  unfold bind at 1. rewrite (oci_dotted_host_accepted _ _ _ _ Ht Hs Hd).
  unfold bind at 1.
  change (print ("Downloading " +:+ (registry +:+ "/" +:+ reference) +:+ "...") w)
    with (Ok tt, add_stdout (oci_downloading (registry +:+ "/" +:+ reference)) w).
  cbv iota beta.
  unfold bind at 1.
  change (run_cmd P ["omlmd"; "pull"; registry +:+ "/" +:+ reference; "--output";
                     store +:+ "/repos/oci/" +:+ registry +:+ "/"
                     +:+ Str.replace ":" "/" reference])
    with (run_cmd P (oci_pull_cmd store (registry +:+ "/" +:+ reference) registry
                       (Str.replace ":" "/" reference))).
  rewrite Hrun. unfold bind at 1.
  change (store +:+ "/repos/oci/" +:+ registry +:+ "/" +:+ Str.replace ":" "/" reference)
    with (oci_outdir store registry (Str.replace ":" "/" reference)).
  rewrite Hls.
  change (filter (fun file => Str.endswith file ".gguf" = true) files)
    with (ggufs_of files).
  destruct (ggufs_of files) as [|g [|g' rest]]; reflexivity.
Qed.

Lemma add_stdout_keeps_links (msg : string) (w : world) :
  keeps_links w (add_stdout msg w).
Proof. split; [reflexivity | simpl; tauto]. Qed.

Lemma run_cmd_omlmd_keeps_links (target outdir : string) :
  respects keeps_links (run_cmd P ["omlmd"; "pull"; target; "--output"; outdir]).
Proof.
  unfold run_cmd, x.
  respects_by keeps_links_refl keeps_links_trans ltac:(apply omlmd_pull_keeps_links).
Qed.

End OciPull.

(** After the artifact of an OCI reference is pulled and its output
    directory listed: with no file or more than one file ending in [.gguf]
    the pull prints that it cannot identify the model and exits with status
    -1, every symbolic link of the store being as it was; with exactly one
    such file, and [ln] succeeding on a path that is free or a link, the
    pull returns the path of a link whose target is the path of that file
    relative to the link's directory, and no regular file is changed by the
    publishing. *)
Theorem oci_pull_artifact (P : platform) (store model registry reference out : string)
    (files : list string) (w w1 : world) :
  Str.removeprefix model "oci://" = registry +:+ "/" +:+ reference ->
  Str.contains "/" registry = false ->
  Str.contains "." registry = true ->
  run_cmd P
    (oci_pull_cmd store (registry +:+ "/" +:+ reference) registry
       (Str.replace ":" "/" reference))
    (add_stdout (oci_downloading (registry +:+ "/" +:+ reference)) w)
  = (Ok out, w1) ->
  os_listdir (oci_outdir store registry (Str.replace ":" "/" reference)) w1
  = (Ok files, w1) ->
  (length (ggufs_of files) <> 1%nat ->
   pull_oci P model store w
   = (Exit (-1),
      add_stdout
        (oci_unidentified (oci_outdir store registry (Str.replace ":" "/" reference)))
        w1)
   /\ keeps_links w w1)
  /\ (forall gguf w2 rel,
        ggufs_of files = [gguf] ->
        os_makedirs (oci_directory store registry (Str.replace ":" "/" reference)) w1
        = (Ok tt, w2) ->
        Path.relpath (cwd w2)
          (oci_outdir store registry (Str.replace ":" "/" reference) +:+ "/" +:+ gguf)
          (Path.dirname
             (oci_symlink_path store registry (Str.replace ":" "/" reference) gguf))
        = Some rel ->
        free_or_link w2
          (oci_symlink_path store registry (Str.replace ":" "/" reference) gguf) = true ->
        path_isdir w2
          (oci_symlink_path store registry (Str.replace ":" "/" reference) gguf) = false ->
        ln_status P rel
          (oci_symlink_path store registry (Str.replace ":" "/" reference) gguf) = 0 ->
        exists w3,
          pull_oci P model store w
          = (Ok (oci_symlink_path store registry (Str.replace ":" "/" reference) gguf),
             w3)
          /\ fs w3 !! key w3
                (oci_symlink_path store registry (Str.replace ":" "/" reference) gguf)
             = Some (Link rel)
          /\ keeps_files w2 w3).
Proof.
  intros Ht Hs Hd Hrun Hls.
  pose proof (pull_oci_cases P _ _ _ _ _ _ _ _ Ht Hs Hd Hrun Hls) as Hc.
  split.
  - intros Hlen. split.
    + rewrite Hc. destruct (ggufs_of files) as [|g [|g' rest]]; try reflexivity.
      simpl in Hlen. congruence.
    + eapply keeps_links_trans; [apply add_stdout_keeps_links|].
      eapply run_cmd_omlmd_keeps_links. exact Hrun.
  - intros gguf w2 rel Hg Hmk Hrel Hfree Hdir Hln.
    rewrite Hc, Hg. unfold bind at 1. rewrite Hmk.
    unfold bind at 1. unfold os_path_relpath at 1. rewrite Hrel.
    apply (publish_link P); auto.
    unfold oci_symlink_path. apply append_slash_nonempty.
Qed.

(** The two artifacts of the scenario: [ns/pair:tag] holds two model files
    and is refused; [ns/repo:tag] holds one, which is published. *)
Lemma oci_pull_artifact_witness :
  fst (pull_oci Scenario.P "oci://registry.acme.org/ns/pair:tag" Scenario.store
         Scenario.w0) = Exit (-1)
  /\ keeps_links Scenario.w0 OciScenario.w_pair
  /\ exists w3,
       pull_oci Scenario.P "oci://registry.acme.org/ns/repo:tag" Scenario.store
         Scenario.w0 = (Ok OciScenario.link, w3)
       /\ fs w3 !! key w3 OciScenario.link = Some (Link OciScenario.target).
Proof.
  pose proof (oci_pull_artifact Scenario.P Scenario.store
                "oci://registry.acme.org/ns/pair:tag" OciScenario.registry
                "ns/pair:tag" EmptyString ["a.gguf"; "b.gguf"]
                Scenario.w0 OciScenario.w_pair
                ltac:(vm_compute; reflexivity) ltac:(vm_compute; reflexivity)
                ltac:(vm_compute; reflexivity) ltac:(vm_compute; reflexivity)
                ltac:(vm_compute; reflexivity)) as [Hpair _].
  pose proof (oci_pull_artifact Scenario.P Scenario.store
                "oci://registry.acme.org/ns/repo:tag" OciScenario.registry
                "ns/repo:tag" EmptyString ["model.gguf"; "README.md"]
                Scenario.w0 OciScenario.w_repo
                ltac:(vm_compute; reflexivity) ltac:(vm_compute; reflexivity)
                ltac:(vm_compute; reflexivity) ltac:(vm_compute; reflexivity)
                ltac:(vm_compute; reflexivity)) as [_ Hrepo].
  destruct Hpair as [H1 H2]; [vm_compute; discriminate|].
  destruct (Hrepo "model.gguf" OciScenario.w_repo_dir OciScenario.target
              ltac:(vm_compute; reflexivity) ltac:(vm_compute; reflexivity)
              ltac:(vm_compute; reflexivity) ltac:(vm_compute; reflexivity)
              ltac:(vm_compute; reflexivity) ltac:(vm_compute; reflexivity))
    as (w3 & H3 & H4 & _).
  split; [rewrite H1; reflexivity|]. split; [exact H2|].
  exists w3. split; [exact H3 | exact H4].
Defined.

(** ** Copying a local file into the store *)

(** Writing an entry that is not a link, at a place that holds no link,
    does not change where paths lead. *)
Lemma resolve_insert (fuel : nat) (w w' : world) (kb k0 : string) (n : node) :
  cwd w' = cwd w ->
  fs w' = <[kb := n]> (fs w) ->
  (forall t, fs w !! kb <> Some (Link t)) ->
  (forall t, n <> Link t) ->
  resolve fuel w' k0 = resolve fuel w k0.
Proof.
  intros Hc Hf Hkb Hn. revert k0.
  induction fuel as [|m IH]; intros k0; simpl; rewrite Hf;
    destruct (decide (kb = k0)) as [->|Hne];
    try (rewrite lookup_insert_eq;
         destruct n as [d|t|]; [|exfalso; eapply Hn; reflexivity|];
         destruct (fs w !! k0) as [[d'|t'|]|] eqn:E; try reflexivity;
         exfalso; eapply Hkb; reflexivity);
    rewrite lookup_insert_ne by exact Hne;
    destruct (fs w !! k0) as [[d'|t'|]|]; try reflexivity.
  unfold key. rewrite Hc. apply IH.
Qed.

Lemma follow_insert (w w' : world) (kb p : string) (n : node) :
  cwd w' = cwd w ->
  fs w' = <[kb := n]> (fs w) ->
  (forall t, fs w !! kb <> Some (Link t)) ->
  (forall t, n <> Link t) ->
  follow w' p = follow w p.
Proof.
  intros Hc Hf Hkb Hn. unfold follow, key. rewrite Hc.
  destruct (String.eqb p EmptyString); [reflexivity|].
  eapply resolve_insert; eauto.
Qed.

(** After such a write a path leads to the new entry if it led to the
    place written, and to what it led to before otherwise. *)
Lemma stat_insert (w w' : world) (kb p : string) (n : node) :
  cwd w' = cwd w ->
  fs w' = <[kb := n]> (fs w) ->
  (forall t, fs w !! kb <> Some (Link t)) ->
  (forall t, n <> Link t) ->
  stat w' p = if bool_decide (follow w p = Some kb) then Some n else stat w p.
Proof.
  intros Hc Hf Hkb Hn. unfold stat.
  rewrite (follow_insert _ _ _ _ _ Hc Hf Hkb Hn).
  destruct (follow w p) as [k|]; [|reflexivity].
  rewrite Hf. destruct (decide (k = kb)) as [->|Hne].
  - rewrite bool_decide_eq_true_2 by reflexivity. apply lookup_insert_eq.
  - rewrite bool_decide_eq_false_2 by congruence.
    apply lookup_insert_ne. congruence.
Qed.

Lemma write_file_at (w : world) (p data kb : string) :
  follow w p = Some kb ->
  path_isdir w p = false ->
  write_file w p data
  = Some (log (Write kb) (with_fs w (<[kb := File data]> (fs w)))).
Proof.
  intros Hf Hd. unfold write_file. rewrite Hf.
  unfold path_isdir, stat in Hd. rewrite Hf in Hd.
  destruct (fs w !! kb) as [[d|t|]|]; try reflexivity. discriminate.
Qed.

(** [LocalModelFile.download]: a missing source raises [FileNotFoundError]
    and changes nothing; a source that is the destination itself raises
    [SameFileError]; otherwise the data of the source is written to the
    blob path, the path of the blob relative to the snapshot directory is
    returned, nothing but the blob is written, and the source still holds
    its data. *)
Theorem local_file_download (url blob_file_path snapshot_dir : string) (w : world) :
  (path_exists w url = false ->
   LocalModelFile.download url blob_file_path snapshot_dir w
   = (Raise (FileNotFoundError ("No such file: '" +:+ url +:+ "'")), w))
  /\ (forall data,
        stat w url = Some (File data) ->
        path_isdir w blob_file_path = false ->
        follow w url = follow w blob_file_path ->
        LocalModelFile.download url blob_file_path snapshot_dir w
        = (Raise SameFileError, w))
  /\ (forall data kb rel,
        stat w url = Some (File data) ->
        path_isdir w blob_file_path = false ->
        follow w blob_file_path = Some kb ->
        follow w url <> Some kb ->
        Path.relpath (cwd w) blob_file_path snapshot_dir = Some rel ->
        exists w',
          LocalModelFile.download url blob_file_path snapshot_dir w = (Ok rel, w')
          /\ fs w' = <[kb := File data]> (fs w)
          /\ trace w' = trace w ++ [Write kb]
          /\ stat w' blob_file_path = Some (File data)
          /\ stat w' url = Some (File data)).
Proof.
  split; [|split].
  - intros He. unfold LocalModelFile.download, bind, os_path_exists.
    rewrite He. reflexivity.
  - intros data Hs Hd Hsame.
    unfold LocalModelFile.download, bind at 1, os_path_exists, path_exists.
    rewrite Hs. cbn [negb]. unfold bind, shutil_copy. rewrite Hd, Hs.
    rewrite bool_decide_eq_true_2 by exact Hsame. reflexivity.
  - intros data kb rel Hs Hd Hf Hne Hrel.
    unfold LocalModelFile.download, bind at 1, os_path_exists, path_exists.
    rewrite Hs. cbn [negb]. unfold bind, shutil_copy. rewrite Hd, Hs.
    rewrite bool_decide_eq_false_2 by (rewrite Hf; exact Hne).
    rewrite (write_file_at _ _ _ _ Hf Hd).
    unfold os_path_relpath. cbn [cwd log with_fs]. rewrite Hrel.
    set (w' := log (Write kb) (with_fs w (<[kb := File data]> (fs w)))).
    exists w'. split; [reflexivity|]. split; [reflexivity|]. split; [reflexivity|].
    assert (Hkb : forall t, fs w !! kb <> Some (Link t))
      by (intros t; eapply follow_not_link; eauto).
    split.
    + rewrite (stat_insert w w' kb _ (File data) eq_refl eq_refl Hkb)
        by (intros t; discriminate).
      rewrite bool_decide_eq_true_2 by exact Hf. reflexivity.
    + rewrite (stat_insert w w' kb _ (File data) eq_refl eq_refl Hkb)
        by (intros t; discriminate).
      rewrite bool_decide_eq_false_2 by exact Hne. exact Hs.
Qed.

(** A model file of a home directory copied into the store; a path that
    names nothing. *)
Lemma local_file_download_witness :
  (exists w',
     LocalModelFile.download FileScenario.source FileScenario.blob
       FileScenario.snapshot_dir FileScenario.w_file
     = (Ok "../../blobs/sha256-tiny", w')
     /\ stat w' FileScenario.blob = Some (File Scenario.model_data)
     /\ stat w' FileScenario.source = Some (File Scenario.model_data))
  /\ LocalModelFile.download "/home/user/none.gguf" FileScenario.blob
       FileScenario.snapshot_dir FileScenario.w_file
     = (Raise (FileNotFoundError "No such file: '/home/user/none.gguf'"),
        FileScenario.w_file).
Proof.
  split.
  - destruct (proj2 (proj2 (local_file_download FileScenario.source FileScenario.blob
                              FileScenario.snapshot_dir FileScenario.w_file))
                Scenario.model_data FileScenario.blob "../../blobs/sha256-tiny"
                ltac:(vm_compute; reflexivity) ltac:(vm_compute; reflexivity)
                ltac:(vm_compute; reflexivity) ltac:(vm_compute; discriminate)
                ltac:(vm_compute; reflexivity))
      as (w' & H1 & _ & _ & H2 & H3).
    exists w'. auto.
  - apply (proj1 (local_file_download "/home/user/none.gguf" FileScenario.blob
                    FileScenario.snapshot_dir FileScenario.w_file)).
    vm_compute. reflexivity.
Defined.

(** ** The file scheme of the URL adapter *)

Lemma os_symlink_vacant (src dst : string) (w : world) :
  vacant w dst = true ->
  os_symlink src dst w
  = (Ok tt, log (Symlink (key w dst) src)
              (with_fs w (<[key w dst := Link src]> (fs w)))).
Proof.
  unfold vacant, os_symlink. intros H. apply andb_true_iff in H.
  destruct H as [Hn Hk]. apply negb_true_iff in Hn. rewrite Hn.
  destruct (fs w !! key w dst); [discriminate | reflexivity].
Qed.

Lemma os_symlink_taken (src dst : string) (w : world) :
  path_lexists w dst = true ->
  os_symlink src dst w = (Raise (FileExistsError dst), w).
Proof.
  unfold path_lexists, os_symlink.
  destruct (String.eqb dst EmptyString); [discriminate|].
  destruct (fs w !! key w dst); [reflexivity | discriminate].
Qed.

Section UrlPull.

Variable REGISTRY_URL : string.
Variable Model_extract_model_identifiers : URL.t -> string * string * string.
Variable Model_model_path : URL.t -> URL.Args -> string.
Variable SnapshotFile_download : string -> string -> string -> M string.
Variable download_file : string -> string -> bool -> M unit.
Variable generate_sha256 : string -> string.
Variable check_valid_model_path : URL.t -> string -> string -> M bool.

Local Abbreviation pull :=
  (URL.pull REGISTRY_URL Model_extract_model_identifiers Model_model_path
     SnapshotFile_download download_file generate_sha256 check_valid_model_path).

(** [URL.pull] of a [file] reference without a model store, once its two
    directories are made: a missing source raises [FileNotFoundError]; an
    entry already at the place of the first link raises [FileExistsError]
    (the links are made with [os.symlink], which does not replace); with
    both places vacant the model path is returned and both links point at
    the source path as given. *)
Theorem url_pull_file (self : URL.t) (args : URL.Args) (w w1 w2 : world) :
  URL.store self = None ->
  URL.type self = "file" ->
  os_makedirs (url_directory_path self args) w = (Ok tt, w1) ->
  os_makedirs (Path.dirname (Model_model_path self args)) w1 = (Ok tt, w2) ->
  (path_exists w2 (URL.model self) = false ->
   pull self args w
   = (Raise (FileNotFoundError (URL.model self +:+ " no such file")), w2))
  /\ (path_exists w2 (URL.model self) = true ->
      path_lexists w2 (url_link_path (Model_model_path self args) self) = true ->
      pull self args w
      = (Raise (FileExistsError (url_link_path (Model_model_path self args) self)),
         w2))
  /\ (path_exists w2 (URL.model self) = true ->
      vacant w2 (url_link_path (Model_model_path self args) self) = true ->
      vacant w2 (url_target_path self args) = true ->
      key w2 (url_link_path (Model_model_path self args) self)
      <> key w2 (url_target_path self args) ->
      exists w3,
        pull self args w = (Ok (Model_model_path self args), w3)
        /\ fs w3 !! key w3 (url_link_path (Model_model_path self args) self)
           = Some (Link (URL.model self))
        /\ fs w3 !! key w3 (url_target_path self args)
           = Some (Link (URL.model self))
        /\ keeps_files w2 w3).
Proof.
  intros Hst Hty Hm1 Hm2.
  assert (Hpre : forall k : M string,
             pull self args w =
             (present <- os_path_exists (URL.model self) ;;
              if negb present then
                raise (FileNotFoundError (URL.model self +:+ " no such file"))
              else
                os_symlink (URL.model self)
                  (url_link_path (Model_model_path self args) self) ;;;
                os_symlink (URL.model self) (url_target_path self args) ;;;
                ret (Model_model_path self args)) w2).
  { intros _. unfold URL.pull. rewrite Hst.
    unfold bind at 1. fold (url_directory_path self args). rewrite Hm1.
    unfold bind at 1. rewrite Hm2. rewrite Hty. reflexivity. }
  specialize (Hpre (ret EmptyString)).
  split; [|split].
  - intros He. rewrite Hpre. unfold bind, os_path_exists. rewrite He. reflexivity.
  - intros He Hl. rewrite Hpre. unfold bind at 1, os_path_exists. rewrite He.
    cbn [negb]. unfold bind at 1. rewrite (os_symlink_taken _ _ _ Hl). reflexivity.
  - intros He Hv1 Hv2 Hne. rewrite Hpre. unfold bind at 1, os_path_exists.
    rewrite He. cbn [negb]. unfold bind at 1.
    rewrite (os_symlink_vacant _ _ _ Hv1).
    set (l := url_link_path (Model_model_path self args) self) in *.
    set (t := url_target_path self args) in *.
    set (wa := log (Symlink (key w2 l) (URL.model self))
                 (with_fs w2 (<[key w2 l := Link (URL.model self)]> (fs w2)))).
    assert (Hv2' : vacant wa t = true).
    { unfold vacant in *. apply andb_true_iff in Hv2. destruct Hv2 as [Ha Hb].
      rewrite Ha. cbn [andb]. unfold wa, key. simpl.
      fold (key w2 l). fold (key w2 t).
      rewrite lookup_insert_ne by exact Hne. exact Hb. }
    unfold bind at 1. rewrite (os_symlink_vacant _ _ _ Hv2').
    eexists. split; [reflexivity|].
    assert (Hkt : key wa t = key w2 t) by reflexivity.
    split; [|split].
    + unfold key. simpl. fold (key w2 l). fold (key w2 t).
      rewrite lookup_insert_ne by congruence. apply lookup_insert_eq.
    + unfold key. simpl. fold (key w2 t). apply lookup_insert_eq.
    + split; [reflexivity|]. intros k d Hk. simpl.
      fold (key w2 l). fold (key w2 t).
      unfold vacant in Hv1, Hv2.
      apply andb_true_iff in Hv1. destruct Hv1 as [_ Hv1].
      apply andb_true_iff in Hv2. destruct Hv2 as [_ Hv2].
      destruct (decide (key w2 t = k)) as [<-|Hn1];
        [rewrite Hk in Hv2; discriminate|].
      rewrite lookup_insert_ne by exact Hn1.
      destruct (decide (key w2 l = k)) as [<-|Hn2];
        [rewrite Hk in Hv1; discriminate|].
      rewrite lookup_insert_ne by exact Hn2. exact Hk.
Qed.

End UrlPull.

(** A model file of a home directory pulled through the file scheme, and a
    path that names nothing. *)
Lemma url_pull_file_witness :
  (exists w3,
     UrlFileScenario.pull UrlFileScenario.self FileScenario.w_file
     = (Ok "/var/lib/ramalama/models/file/home/user/tiny.gguf", w3)
     /\ fs w3 !! "/var/lib/ramalama/models/file/home/user/tiny.gguf"
        = Some (Link "/home/user/tiny.gguf"))
  /\ UrlFileScenario.pull UrlFileScenario.missing FileScenario.w_file
     = (Raise (FileNotFoundError "/home/user/none.gguf no such file"),
        UrlFileScenario.w2_missing).
Proof.
  split.
  - destruct (proj2 (proj2
        (url_pull_file UrlScenario.REGISTRY_URL
           (UrlScenario.base_of ("tiny.gguf", "latest", "home/user"))
           UrlFileScenario.model_path UrlFileScenario.no_download
           UrlFileScenario.no_download_file SHA256.hexdigest
           UrlFileScenario.no_check UrlFileScenario.self UrlFileScenario.args
           FileScenario.w_file UrlFileScenario.w1 UrlFileScenario.w2
           eq_refl eq_refl
           ltac:(vm_compute; reflexivity) ltac:(vm_compute; reflexivity)))
        ltac:(vm_compute; reflexivity) ltac:(vm_compute; reflexivity)
        ltac:(vm_compute; reflexivity) ltac:(vm_compute; discriminate))
      as (w3 & H1 & H2 & _ & Hc & _).
    exists w3. split; [exact H1|].
    unfold key in H2. rewrite Hc in H2.
    replace (Path.canon (cwd UrlFileScenario.w2)
               (url_link_path
                  (UrlFileScenario.model_path UrlFileScenario.self
                     UrlFileScenario.args) UrlFileScenario.self))
      with "/var/lib/ramalama/models/file/home/user/tiny.gguf" in H2
      by (vm_compute; reflexivity).
    exact H2.
  - apply (proj1
        (url_pull_file UrlScenario.REGISTRY_URL
           (UrlScenario.base_of ("tiny.gguf", "latest", "home/user"))
           UrlFileScenario.model_path UrlFileScenario.no_download
           UrlFileScenario.no_download_file SHA256.hexdigest
           UrlFileScenario.no_check UrlFileScenario.missing UrlFileScenario.args
           FileScenario.w_file UrlFileScenario.w1_missing UrlFileScenario.w2_missing
           eq_refl eq_refl
           ltac:(vm_compute; reflexivity) ltac:(vm_compute; reflexivity))).
    vm_compute. reflexivity.
Defined.

(** ** Pulling again *)

Section PullAgain.

Variable P : platform.

(** [init_pull] returns nothing but the symlink path it was given. *)
Lemma init_pull_returns
    (repos_ollama manifests accept registry_head model_name model_tag
     ramalama_models symlink_path model p : string) (w w1 : world) :
  init_pull P repos_ollama manifests accept registry_head model_name model_tag
    ramalama_models symlink_path model w = (Ok p, w1) ->
  p = symlink_path.
Proof.
  unfold init_pull. intros H.
  apply bind_Ok_inv in H. destruct H as (md & wa & _ & H).
  apply bind_Ok_inv in H. destruct H as ([] & wb & _ & H).
  apply bind_Ok_inv in H. destruct H as (layers & wc & _ & H).
  apply bind_Ok_inv in H. destruct H as (items & wd & _ & H).
  apply bind_Ok_inv in H. destruct H as ([] & we & _ & H).
  inversion H. reflexivity.
Qed.

End PullAgain.

(** Pulling an Ollama reference again: when a pull has returned a path that
    exists in the store it leaves, and the literal reference matches
    nothing under [models/*/] in that store (or matches that path first),
    the same pull run on that store returns the same path and changes
    nothing: no directory made, no file written, no command started. *)
Theorem pull_again_is_noop (P : platform) (store ref port p : string)
    (w w1 : world) :
  Str.startswith ref "huggingface://" = false ->
  Str.startswith ref "oci://" = false ->
  pull_cli P store [ref] port w = (Ok p, w1) ->
  path_exists w1 p = true ->
  List.hd p (glob_models w1 store ref) = p ->
  pull_cli P store [ref] port w1 = (Ok p, w1).
Proof.
  intros Hh Ho Hpull Hex Hglob.
  destruct (glob_models w1 store ref) as [|first others] eqn:Hg1.
  - assert (Hp : p = ollama_symlink_path store ref).
    { destruct (glob_models w store ref) as [|f0 o0] eqn:Hg.
      - rewrite (pull_cli_ollama P _ _ _ _ _ Hg Hh Ho) in Hpull.
        destruct (path_exists w (ollama_symlink_path store ref)).
        + inversion Hpull. reflexivity.
        + unfold ollama_init_pull in Hpull.
          eapply init_pull_returns; eauto.
      - rewrite (pull_cli_glob P _ _ _ _ _ _ _ Hg) in Hpull.
        inversion Hpull; subst. rewrite Hg in Hg1. discriminate. }
    rewrite (pull_cli_ollama P _ _ _ _ _ Hg1 Hh Ho). rewrite <- Hp, Hex.
    reflexivity.
  - simpl in Hglob. subst first.
    apply (pull_cli_glob P _ _ _ _ _ _ _ Hg1).
Qed.

(** The reference [tiny] of the scenario pulled twice. *)
Lemma pull_again_is_noop_witness :
  Scenario.pull Scenario.P "tiny" Scenario.w_tiny
  = (Ok "/var/lib/ramalama/models/ollama/tiny:latest", Scenario.w_tiny).
Proof.
  apply (pull_again_is_noop Scenario.P Scenario.store "tiny" "8080"
           "/var/lib/ramalama/models/ollama/tiny:latest" Scenario.w0 Scenario.w_tiny);
    vm_compute; reflexivity.
Defined.

(** ** The Hugging Face adapter *)

Lemma rcut_none (c : ascii) (s : string) :
  Str.rcut c s = None <-> Str.contains c s = false.
Proof.
  induction s as [|a s IH]; simpl.
  - tauto.
  - destruct (Str.rcut c s) as [[l r]|].
    + split; [discriminate|]. intros H.
      destruct (Ascii.eqb a c); [discriminate|].
      apply IH in H. discriminate.
    + destruct (Ascii.eqb a c); [split; discriminate|].
      split; intros _; [apply IH|]; reflexivity.
Qed.

Lemma rcut_app (c : ascii) (l r : string) :
  Str.contains c r = false -> Str.rcut c (l +:+ String c r) = Some (l, r).
Proof.
  intros Hr. induction l as [|a l IH]; simpl.
  - apply rcut_none in Hr. rewrite Hr, Ascii.eqb_refl. reflexivity.
  - rewrite IH. reflexivity.
Qed.

Section HuggingFace.

Variable P : platform.

Lemma pull_huggingface_cases (model store directory filename : string) (w : world) :
  Str.removeprefix model "huggingface://" = directory +:+ "/" +:+ filename ->
  Str.contains "/" filename = false ->
  pull_huggingface P model store w =
    (gguf_path <- run_cmd P (hf_cmd store directory filename) ;;
     os_makedirs (hf_directory store directory) ;;;
     relative_target_path <-
       os_path_relpath (Str.rstrip gguf_path)
         (Path.dirname (hf_symlink_path store directory filename)) ;;
     correct <-
       symlink_is_correct (hf_symlink_path store directory filename)
         relative_target_path ;;
     if correct then ret (hf_symlink_path store directory filename)
     else
       ln_sf P relative_target_path (hf_symlink_path store directory filename) ;;;
       ret (hf_symlink_path store directory filename)) w.
Proof.
  intros Hm Hf. unfold pull_huggingface, Str.rsplit1. rewrite Hm.
  change (directory +:+ "/" +:+ filename) with (directory +:+ String "/" filename).
  rewrite (rcut_app _ _ _ Hf). reflexivity.
Qed.

End HuggingFace.

(** [pull_huggingface]: a reference without a slash raises [ValueError]
    before anything is run; a failing [huggingface-cli] ends the pull in
    its uncaught [CalledProcessError]; after a download, when the path of
    the link is free or holds a link and [ln] succeeds, the pull returns the
    path of a link to the downloaded file, and a link that is already
    correct is left alone: nothing is written after the download and the
    making of the directory. *)
Theorem hf_pull (P : platform) (model store : string) (w : world) :
  (Str.contains "/" (Str.removeprefix model "huggingface://") = false ->
   pull_huggingface P model store w = (Raise unpack_error, w))
  /\ (forall directory filename cmd rc w1,
        Str.removeprefix model "huggingface://" = directory +:+ "/" +:+ filename ->
        Str.contains "/" filename = false ->
        run_cmd P (hf_cmd store directory filename) w
        = (Raise (CalledProcessError cmd rc), w1) ->
        pull_huggingface P model store w = (Raise (CalledProcessError cmd rc), w1))
  /\ (forall directory filename gguf_path rel w1 w2,
        Str.removeprefix model "huggingface://" = directory +:+ "/" +:+ filename ->
        Str.contains "/" filename = false ->
        run_cmd P (hf_cmd store directory filename) w = (Ok gguf_path, w1) ->
        os_makedirs (hf_directory store directory) w1 = (Ok tt, w2) ->
        Path.relpath (cwd w2) (Str.rstrip gguf_path)
          (Path.dirname (hf_symlink_path store directory filename)) = Some rel ->
        (free_or_link w2 (hf_symlink_path store directory filename) = true ->
         path_isdir w2 (hf_symlink_path store directory filename) = false ->
         ln_status P rel (hf_symlink_path store directory filename) = 0 ->
         exists w3,
           pull_huggingface P model store w
           = (Ok (hf_symlink_path store directory filename), w3)
           /\ fs w3 !! key w3 (hf_symlink_path store directory filename)
              = Some (Link rel)
           /\ keeps_files w2 w3)
        /\ (path_exists w2 (hf_symlink_path store directory filename) = true ->
            fs w2 !! key w2 (hf_symlink_path store directory filename)
            = Some (Link rel) ->
            pull_huggingface P model store w
            = (Ok (hf_symlink_path store directory filename), w2))).
Proof.
  split; [|split].
  - intros H. unfold pull_huggingface, Str.rsplit1.
    apply rcut_none in H. rewrite H. reflexivity.
  - intros directory filename cmd rc w1 Hm Hf Hrun.
    rewrite (pull_huggingface_cases P _ _ _ _ _ Hm Hf).
    unfold bind at 1. rewrite Hrun. reflexivity.
  - intros directory filename gguf_path rel w1 w2 Hm Hf Hrun Hmk Hrel.
    assert (Hstep :
      pull_huggingface P model store w =
        (correct <-
           symlink_is_correct (hf_symlink_path store directory filename) rel ;;
         if correct then ret (hf_symlink_path store directory filename)
         else
           ln_sf P rel (hf_symlink_path store directory filename) ;;;
           ret (hf_symlink_path store directory filename)) w2).
    { rewrite (pull_huggingface_cases P _ _ _ _ _ Hm Hf).
      unfold bind at 1. rewrite Hrun. unfold bind at 1. rewrite Hmk.
      unfold bind at 1. unfold os_path_relpath at 1. rewrite Hrel. reflexivity. }
    rewrite Hstep.
    assert (Hne : String.eqb (hf_symlink_path store directory filename) EmptyString
                  = false) by (unfold hf_symlink_path; apply append_slash_nonempty).
    split.
    + intros Hfree Hdir Hln. apply (publish_link P); auto.
    + intros Hex Hk. rewrite (bind_ok _ _ w2 w2 true); [reflexivity|].
      rewrite (symlink_is_correct_cases _ _ _ Hne), Hex, Hk, String.eqb_refl.
      reflexivity.
Qed.

(** The Hugging Face reference of the scenario pulled twice, and a
    reference without a slash. *)
Lemma hf_pull_witness :
  (exists w3,
     pull_huggingface Scenario.P HfScenario.ref Scenario.store Scenario.w0
     = (Ok HfScenario.link, w3)
     /\ fs w3 !! key w3 HfScenario.link = Some (Link HfScenario.target))
  /\ pull_huggingface Scenario.P HfScenario.ref Scenario.store HfScenario.w_hf
     = (Ok HfScenario.link, HfScenario.w_dir2)
  /\ pull_huggingface Scenario.P "huggingface://tiny.gguf" Scenario.store Scenario.w0
     = (Raise unpack_error, Scenario.w0).
Proof.
  split; [|split].
  - destruct (proj1 (proj2 (proj2 (hf_pull Scenario.P HfScenario.ref Scenario.store
                                     Scenario.w0))
                       HfScenario.directory HfScenario.filename HfScenario.printed
                       HfScenario.target HfScenario.w_run HfScenario.w_dir
                       ltac:(vm_compute; reflexivity) ltac:(vm_compute; reflexivity)
                       ltac:(vm_compute; reflexivity) ltac:(vm_compute; reflexivity)
                       ltac:(vm_compute; reflexivity))
                ltac:(vm_compute; reflexivity) ltac:(vm_compute; reflexivity)
                ltac:(vm_compute; reflexivity))
      as (w3 & H1 & H2 & _).
    exists w3. split; [exact H1 | exact H2].
  - apply (proj2 (proj2 (proj2 (hf_pull Scenario.P HfScenario.ref Scenario.store
                                  HfScenario.w_hf))
                    HfScenario.directory HfScenario.filename HfScenario.printed
                    HfScenario.target HfScenario.w_run2 HfScenario.w_dir2
                    ltac:(vm_compute; reflexivity) ltac:(vm_compute; reflexivity)
                    ltac:(vm_compute; reflexivity) ltac:(vm_compute; reflexivity)
                    ltac:(vm_compute; reflexivity)));
      vm_compute; reflexivity.
  - apply (proj1 (hf_pull Scenario.P "huggingface://tiny.gguf" Scenario.store
                    Scenario.w0)).
    vm_compute. reflexivity.
Defined.

(** ** A downloaded layer is not verified *)

Lemma keeps_files_refl (w : world) : keeps_files w w.
Proof. split; auto. Qed.

Lemma keeps_files_trans (w1 w2 w3 : world) :
  keeps_files w1 w2 -> keeps_files w2 w3 -> keeps_files w1 w3.
Proof. intros [Hc1 H1] [Hc2 H2]. split; [congruence | auto]. Qed.

Lemma makedirs_from_keeps_files (comps : list string) (pre : string) :
  respects keeps_files (makedirs_from pre comps).
Proof.
  revert pre. induction comps as [|c rest IH]; intros pre w r w' H; simpl in H.
  - inversion H; subst. apply keeps_files_refl.
  - set (cur := pre +:+ "/" +:+ c) in *.
    destruct (fs w !! cur) as [n|] eqn:E1; destruct (stat w cur) as [[d|t|]|] eqn:E2;
      try (eapply IH; eauto; fail);
      try (destruct rest; inversion H; subst; apply keeps_files_refl; fail);
      try (eapply keeps_files_trans; [|eapply IH; eauto];
           split; [reflexivity|]; intros k d' Hk; simpl;
           rewrite lookup_insert_ne by congruence; exact Hk).
Qed.

Lemma os_makedirs_keeps_files (p : string) : respects keeps_files (os_makedirs p).
Proof.
  intros w r w' H. unfold os_makedirs in H.
  destruct (String.eqb p EmptyString).
  - inversion H; subst. apply keeps_files_refl.
  - eapply makedirs_from_keeps_files; eauto.
Qed.

Lemma stat_vacant (w : world) (p : string) : vacant w p = true -> stat w p = None.
Proof.
  unfold vacant, stat, follow. intros H. apply andb_true_iff in H.
  destruct H as [Hn Hk]. apply negb_true_iff in Hn. rewrite Hn.
  cbn [resolve]. destruct (fs w !! key w p) eqn:E; [discriminate|].
  rewrite E. reflexivity.
Qed.

Lemma follow_vacant (w : world) (p : string) :
  vacant w p = true -> follow w p = Some (key w p).
Proof.
  unfold vacant, follow. intros H. apply andb_true_iff in H.
  destruct H as [Hn Hk]. apply negb_true_iff in Hn. rewrite Hn.
  cbn [resolve]. destruct (fs w !! key w p) eqn:E; [discriminate|]. reflexivity.
Qed.

Section Unverified.

Variable P : platform.

(** A layer request for a blob that is not there yet: curl asks for the
    whole object and writes what it receives. *)
Lemma layer_cmd_run (accept blob_path url data : string) (w : world) :
  vacant w blob_path = true ->
  Str.startswith url "-" = false ->
  http_get P url 0 = (0, data) ->
  subprocess_run P (layer_cmd accept blob_path url) w
  = (Ok EmptyString,
     downloaded (layer_cmd accept blob_path url) (key w blob_path) data w).
Proof.
  intros Hv Hu Hget. unfold subprocess_run, layer_cmd at 1, run_tool.
  cbn [String.eqb Ascii.eqb Bool.eqb].
  unfold tool_curl. cbn [curl_parse String.eqb Ascii.eqb Bool.eqb orb].
  rewrite !(not_dash _ _ Hu), Hu.
  cbn [Str.startswith Ascii.eqb Bool.eqb andb orb curl_url curl_output curl_resume].
  change (stat (log (Run (layer_cmd accept blob_path url)) w) blob_path)
    with (stat w blob_path).
  rewrite (stat_vacant _ _ Hv). cbn [String.length]. rewrite Hget.
  cbn [Z.eqb].
  assert (Hw : write_file (log (Run (layer_cmd accept blob_path url)) w) blob_path
                 (EmptyString +:+ data)
               = Some (downloaded (layer_cmd accept blob_path url)
                         (key w blob_path) data w)).
  { unfold write_file.
    change (follow (log (Run (layer_cmd accept blob_path url)) w) blob_path)
      with (follow w blob_path).
    rewrite (follow_vacant _ _ Hv). cbn [fs log with_fs].
    unfold vacant in Hv. apply andb_true_iff in Hv. destruct Hv as [_ Hk].
    destruct (fs w !! key w blob_path); [discriminate | reflexivity]. }
  rewrite Hw. reflexivity.
Qed.

End Unverified.

(** [pull_ollama_blob] for a layer whose blob is not in the store yet:
    whatever data the registry answers with, the data is stored under the
    name of the digest and the link is written with [ln -sf]; no hash is
    compared after the download.  When the blob and the link are different
    places the blob holds exactly the data received. *)
Theorem ollama_layer_unverified (P : platform)
    (repos_ollama digest accept registry_head ramalama_models model_name model_tag
     symlink_path data rel : string) (w w2 : world) :
  vacant w (Path.joins repos_ollama ["blobs"; digest]) = true ->
  Str.startswith (registry_head +:+ "/blobs/" +:+ digest) "-" = false ->
  http_get P (registry_head +:+ "/blobs/" +:+ digest) 0 = (0, data) ->
  os_makedirs ramalama_models
    (downloaded
       (layer_cmd accept (Path.joins repos_ollama ["blobs"; digest])
          (registry_head +:+ "/blobs/" +:+ digest))
       (key w (Path.joins repos_ollama ["blobs"; digest])) data w)
  = (Ok tt, w2) ->
  Path.relpath (cwd w2) (Path.joins repos_ollama ["blobs"; digest])
    (Path.dirname symlink_path) = Some rel ->
  path_isdir w2 symlink_path = false ->
  ln_status P rel symlink_path = 0 ->
  exists w3,
    pull_ollama_blob P repos_ollama (JStr digest) accept registry_head
      ramalama_models model_name model_tag symlink_path w = (Ok tt, w3)
    /\ fs w3 !! key w3 symlink_path = Some (Link rel)
    /\ In (Run ["ln"; "-sf"; rel; symlink_path]) (trace w3)
    /\ (key w (Path.joins repos_ollama ["blobs"; digest]) <> key w symlink_path ->
        fs w3 !! key w3 (Path.joins repos_ollama ["blobs"; digest])
        = Some (File data)).
Proof.
  intros Hv Hu Hget Hmk Hrel Hdir Hln.
  set (blob := Path.joins repos_ollama ["blobs"; digest]) in *.
  set (url := registry_head +:+ "/blobs/" +:+ digest) in *.
  set (w1 := downloaded (layer_cmd accept blob url) (key w blob) data w) in *.
  assert (Hfetch : run_curl_cmd P (layer_cmd accept blob url) blob w = (Ok tt, w1)).
  { rewrite run_curl_cmd_cases, verify_checksum_cases, (stat_vacant _ _ Hv).
    pose proof (fetch_cases P (layer_cmd accept blob url) blob w) as Hf.
    rewrite (layer_cmd_run P _ _ _ _ _ Hv Hu Hget) in Hf. exact Hf. }
  assert (Hc : cwd w2 = cwd w).
  { apply os_makedirs_grows in Hmk. destruct Hmk as [Hc _]. exact Hc. }
  exists (log (Symlink (key w2 symlink_path) rel)
            (with_fs (log (Run ["ln"; "-sf"; rel; symlink_path]) w2)
               (<[key w2 symlink_path := Link rel]> (fs w2)))).
  split; [|split; [|split]].
  - unfold pull_ollama_blob. unfold bind at 1, lift at 1. cbn [as_str].
    fold blob. fold url.
    change (["curl"; "-f"; "-L"; "-C"; "-"; "--progress-bar"; "--header"; accept;
             "-o"; blob; url]) with (layer_cmd accept blob url).
    unfold bind at 1. rewrite Hfetch. unfold bind at 1. rewrite Hmk.
    unfold bind at 1. unfold os_path_relpath at 1. rewrite Hrel.
    apply ln_sf_ok; assumption.
  - unfold key. simpl. apply lookup_insert_eq.
  - simpl. apply in_or_app. left. apply in_or_app. right. left. reflexivity.
  - intros Hne. unfold key. simpl. fold (key w2 symlink_path). fold (key w2 blob).
    assert (Hk2 : key w2 symlink_path <> key w2 blob)
      by (unfold key; rewrite Hc; fold (key w symlink_path); fold (key w blob);
          congruence).
    rewrite lookup_insert_ne by exact Hk2.
    apply os_makedirs_keeps_files in Hmk. destruct Hmk as [_ Hkeep].
    apply Hkeep. unfold w1, downloaded. simpl.
    unfold key. rewrite Hc. fold (key w blob). apply lookup_insert_eq.
Qed.

(** The damaged registry of the scenario: the layer of [tiny] arrives with
    one character changed and is published all the same. *)
Lemma ollama_layer_unverified_witness :
  exists w3,
    pull_ollama_blob Scenario.P_corrupt (ollama_repos Scenario.store)
      (JStr Scenario.model_digest) ollama_accept (ollama_registry_head "tiny")
      (ollama_models Scenario.store) "library/tiny" "latest"
      (ollama_symlink_path Scenario.store "tiny") Scenario.w0 = (Ok tt, w3)
    /\ fs w3 !! key w3 (Scenario.blobs +:+ Scenario.model_digest)
       = Some (File "GGUF tiny model weightz")
    /\ sha256_hexdigest Scenario.P_corrupt "GGUF tiny model weightz"
       <> "2114a04d0b6c30acb39e31ba6dfed1fbe706ca7ed8b169f37c68ca8651156a5a".
Proof.
  destruct (ollama_layer_unverified Scenario.P_corrupt (ollama_repos Scenario.store)
              Scenario.model_digest ollama_accept (ollama_registry_head "tiny")
              (ollama_models Scenario.store) "library/tiny" "latest"
              (ollama_symlink_path Scenario.store "tiny")
              "GGUF tiny model weightz"
              "../../repos/ollama/blobs/sha256:2114a04d0b6c30acb39e31ba6dfed1fbe706ca7ed8b169f37c68ca8651156a5a"
              Scenario.w0 UnverifiedScenario.w2
              ltac:(vm_compute; reflexivity) ltac:(vm_compute; reflexivity)
              ltac:(vm_compute; reflexivity) ltac:(vm_compute; reflexivity)
              ltac:(vm_compute; reflexivity) ltac:(vm_compute; reflexivity)
              ltac:(vm_compute; reflexivity))
    as (w3 & H1 & _ & _ & H2).
  exists w3. split; [exact H1|]. split.
  - apply H2. vm_compute. discriminate.
  - vm_compute. discriminate.
Defined.

(** ** Durations *)

(** [human_duration] shows the whole number of elapsed units of the largest
    unit that fits: one unit in the singular, two or more in the plural,
    never a plural with a count below two; anything under a second is
    [Less than a second]. *)
Theorem human_duration_units (d : Z) :
  (d < 1 -> human_duration d = "Less than a second")
  /\ (forall unit name next,
        In (unit, name, next) duration_units ->
        unit <= d -> below d next ->
        (d < 2 * unit -> human_duration d = "1 " +:+ name)
        /\ (2 * unit <= d ->
            human_duration d = show_Z (d / unit) +:+ " " +:+ name +:+ "s"
            /\ 2 <= d / unit)).
Proof.
  split.
  - intros H. unfold human_duration.
    destruct (Z.ltb_spec d 1); [reflexivity | lia].
  - intros unit name next Hin Hlo Hhi.
    assert (Hdiv : 0 < unit -> 2 * unit <= d -> 2 <= d / unit)
      by (intros; apply Z.div_le_lower_bound; lia).
    simpl in Hin.
    repeat (destruct Hin as [Hin|Hin];
            [inversion Hin; subst; clear Hin; simpl in Hhi;
             (split;
              [ intros Hone
              | intros Htwo; split; [|apply Hdiv; lia] ]);
             unfold human_duration;
             repeat match goal with
                    | |- context [?a <? ?b] =>
                        destruct (Z.ltb_spec a b); try lia
                    | |- context [?a =? ?b] =>
                        destruct (Z.eqb_spec a b); try lia
                    end;
             try reflexivity
            |]);
      try contradiction.
    all: try (rewrite Z.div_1_r; reflexivity).
Qed.

(** Forty seconds, a minute and a half, thirteen months. *)
Lemma human_duration_units_witness :
  human_duration 40 = "40 seconds"
  /\ human_duration 90 = "1 minute"
  /\ human_duration 31535999 = "13 months".
Proof.
  destruct (human_duration_units 40) as [_ H40].
  destruct (human_duration_units 90) as [_ H90].
  destruct (human_duration_units 31535999) as [_ Hm].
  split; [|split].
  - apply (H40 1 "second" (Some 60)); simpl; try lia. auto.
  - apply (H90 60 "minute" (Some 3600)); simpl; try lia. auto.
  - apply (Hm 2419200 "month" (Some 31536000)); simpl; try lia. auto 10.
Defined.
